(** * The EC2 network reconciler of cluster-api-provider-aws

    A shallow embedding of [cloud/aws/services/ec2/vpc.go],
    [routetables.go] and [network.go], and the properties of the
    reconciliation logic proved over it.

    - Go structs are records, one module per struct so that the fields keep
      their names ([VPC.ID], [ec2.Vpc.VpcId]).
    - A [*string] that the source tests against [nil], or that it leaves
      unset, is an [option string]; a field that the source dereferences
      without a test ([*out.Vpc.VpcId], [*igw.RouteTableId]) is a [string]:
      the provider's replies carry it.
    - The [*v1alpha1.Network] that the reconcilers mutate in place, the
      provider behind [s.EC2] and the sequence of provider calls issued so
      far are the three components of an explicit state; a Go function
      returning [(T, error)] is a function from states to a result and a
      state.
    - [map[string]*ec2.RouteTable] is a [gmap string ec2.RouteTable.t].
    - The provider is any record of transitions over a state of its own; the
      statements hold of every provider unless they name the in-memory
      double [Fake], which stands for a provider that keeps what it is asked
      to create. *)

From Stdlib Require Import String List Lia.
From stdpp Require Import base option list gmap strings pretty.

Local Open Scope string_scope.
Local Open Scope list_scope.

(** ** Data model *)

Module aws.
(** [aws.String]: a pointer to a copy of the string. *)
Definition String (s : string) : option string := Some s.
End aws.

(** The SDK's structs ([github.com/aws/aws-sdk-go/service/ec2]), with the
    fields that the source reads or writes. *)
Module ec2.

Module Filter.
Record t := mk { Name : option string; Values : list string }.
End Filter.

Module Vpc.
Record t := mk { VpcId : string; CidrBlock : string }.
End Vpc.

Module Route.
Record t := mk {
      DestinationCidrBlock : option string;
      DestinationIpv6CidrBlock : option string;
      EgressOnlyInternetGatewayId : option string;
      GatewayId : option string;
      InstanceId : option string;
      NatGatewayId : option string;
      NetworkInterfaceId : option string;
      VpcPeeringConnectionId : option string }.
End Route.

Module RouteTableAssociation.
Record t := mk { SubnetId : option string }.
End RouteTableAssociation.

Module RouteTable.
Record t := mk {
      RouteTableId : string;
      VpcId : string;
      Routes : list Route.t;
      Associations : list RouteTableAssociation.t }.
End RouteTable.

Module DescribeVpcsInput.
Record t := mk { Filters : list Filter.t; VpcIds : list string }.
End DescribeVpcsInput.

Module CreateVpcInput.
Record t := mk { CidrBlock : option string }.
End CreateVpcInput.

Module DeleteVpcInput.
Record t := mk { VpcId : option string }.
End DeleteVpcInput.

Module DescribeRouteTablesInput.
Record t := mk { Filters : list Filter.t }.
End DescribeRouteTablesInput.

Module CreateRouteTableInput.
Record t := mk { VpcId : option string }.
End CreateRouteTableInput.

Module CreateRouteInput.
Record t := mk {
      RouteTableId : string;
      DestinationCidrBlock : option string;
      DestinationIpv6CidrBlock : option string;
      EgressOnlyInternetGatewayId : option string;
      GatewayId : option string;
      InstanceId : option string;
      NatGatewayId : option string;
      NetworkInterfaceId : option string;
      VpcPeeringConnectionId : option string }.
End CreateRouteInput.

Module AssociateRouteTableInput.
Record t := mk { RouteTableId : option string; SubnetId : option string }.
End AssociateRouteTableInput.

End ec2.

(** Modelled from the spec: the structs of [providerconfig/v1alpha1], which
    are declared outside the three files.  A VPC is [{id, addressBlock}]; a
    subnet is [{id, isPublic, routeTableID (optional)}] with the grouping
    (availability zone) and the NAT gateway that the route policy's lookup is
    keyed on; the network holds the VPC by value, an optional internet
    gateway id and a slice of pointers to subnets, each pointing to an object
    of its own, so that [sn.RouteTableID = ...] in the loop over
    [in.Subnets] is an update of the list at the loop's index. *)

Module VPC.
Record t := mk { ID : string; CidrBlock : string }.
End VPC.

Module Subnet.
Record t := mk {
    ID : string;
    AvailabilityZone : string;
    IsPublic : bool;
    RouteTableID : option string;
    NatGatewayID : option string }.

Definition withRouteTableID (sn : t) (r : option string) : t :=
    mk (ID sn) (AvailabilityZone sn) (IsPublic sn) r (NatGatewayID sn).
End Subnet.

Module RouteTable.
Record t := mk { ID : string }.
End RouteTable.

Module Network.
Record t := mk {
    VPC : VPC.t;
    InternetGatewayID : option string;
    Subnets : list Subnet.t }.

Definition withVPC (n : t) (v : VPC.t) : t :=
    mk v (InternetGatewayID n) (Subnets n).
Definition withSubnets (n : t) (sns : list Subnet.t) : t :=
    mk (VPC n) (InternetGatewayID n) sns.
End Network.

(** [type ResourceLifecycle string]; the source uses [ResourceLifecycleOwned]. *)
Inductive ResourceLifecycle := ResourceLifecycleOwned | ResourceLifecycleShared.

(** ** Errors

    An error of [github.com/pkg/errors] keeps its format string and the
    arguments it was built from, unformatted.  An error of the provider is
    the code the client returned. *)

Inductive fmtarg :=
| ArgString (s : string)
| ArgRoute (r : ec2.Route.t)            (* route.GoString() *)
| ArgVpcs (out : list ec2.Vpc.t).       (* out.GoString() of a DescribeVpcsOutput *)

Inductive error :=
| AwsError (code : string)                                       (* from s.EC2 *)
| Errorf (format : string) (args : list fmtarg)                  (* errors.Errorf *)
| Wrapf (cause : error) (format : string) (args : list fmtarg)   (* errors.Wrap, errors.Wrapf *)
| NewNotFound (cause : error)
| NewConflict (cause : error).

(** Modelled from the spec: [IsNotFound] (errors.go, not among the three
    files).  NotFound and Conflict are sentinel types, told apart by a type
    assertion on the error itself. *)
Definition IsNotFound (err : option error) : bool :=
  match err with
  | Some (NewNotFound _) => true
  | _ => false
  end.

(** The wrappers that a failure has gone through, outermost first. *)
Fixpoint context (e : error) : list (string * list fmtarg) :=
  match e with
  | Wrapf c f a => (f, a) :: context c
  | NewNotFound c | NewConflict c => context c
  | AwsError _ | Errorf _ _ => []
  end.

(** A failure of the provider is returned bare when it reaches the caller
    with no wrapper around it. *)
Definition bare (e : error) : bool :=
  match e with
  | AwsError _ => true
  | _ => false
  end.

Inductive result (A : Type) :=
| Ok (a : A)
| Err (e : error).
Arguments Ok {A} a.
Arguments Err {A} e.

(** What the provider answers: an output or an error code. *)
Inductive reply (A : Type) :=
| Done (a : A)
| Failed (code : string).
Arguments Done {A} a.
Arguments Failed {A} code.

(** ** Provider calls

    One constructor per operation of the client that the source invokes,
    with the input it was given and what came back. *)

Module CreateTagsInput.
Record t := mk {
    clusterName : string;
    resourceID : string;
    lifecycle : ResourceLifecycle;
    additionalTags : list (string * string) }.
End CreateTagsInput.

Inductive Call :=
| DescribeVpcs (i : ec2.DescribeVpcsInput.t) (o : reply (list ec2.Vpc.t))
| CreateVpc (i : ec2.CreateVpcInput.t) (o : reply ec2.Vpc.t)
| WaitUntilVpcAvailable (i : ec2.DescribeVpcsInput.t) (o : reply unit)
| CreateTags (i : CreateTagsInput.t) (o : reply unit)
| DeleteVpc (i : ec2.DeleteVpcInput.t) (o : reply unit)
| DescribeRouteTables (i : ec2.DescribeRouteTablesInput.t) (o : reply (list ec2.RouteTable.t))
| CreateRouteTable (i : ec2.CreateRouteTableInput.t) (o : reply ec2.RouteTable.t)
| CreateRoute (i : ec2.CreateRouteInput.t) (o : reply unit)
| AssociateRouteTable (i : ec2.AssociateRouteTableInput.t) (o : reply unit).


Definition isTagging (c : Call) : bool :=
  match c with
  | CreateTags _ _ => true
  | _ => false
  end.

Definition isAssociation (c : Call) : bool :=
  match c with
  | AssociateRouteTable _ _ => true
  | _ => false
  end.

(** The provider: a state of its own and one transition per operation.
    Modelled from the spec: [createTags] (tags.go, not among the three
    files) is the capability [tag(id, ownerKey, ownerValue)] of the consumed
    surface, one call to the provider per invocation; how the owner key is
    derived from the cluster name is the provider's. *)
Record EC2API (W : Type) := {
  api_DescribeVpcs : ec2.DescribeVpcsInput.t → W → reply (list ec2.Vpc.t) * W;
  api_CreateVpc : ec2.CreateVpcInput.t → W → reply ec2.Vpc.t * W;
  api_WaitUntilVpcAvailable : ec2.DescribeVpcsInput.t → W → reply unit * W;
  api_CreateTags : CreateTagsInput.t → W → reply unit * W;
  api_DeleteVpc : ec2.DeleteVpcInput.t → W → reply unit * W;
  api_DescribeRouteTables :
    ec2.DescribeRouteTablesInput.t → W → reply (list ec2.RouteTable.t) * W;
  api_CreateRouteTable : ec2.CreateRouteTableInput.t → W → reply ec2.RouteTable.t * W;
  api_CreateRoute : ec2.CreateRouteInput.t → W → reply unit * W;
  api_AssociateRouteTable : ec2.AssociateRouteTableInput.t → W → reply unit * W }.
Arguments api_DescribeVpcs {W}.
Arguments api_CreateVpc {W}.
Arguments api_WaitUntilVpcAvailable {W}.
Arguments api_CreateTags {W}.
Arguments api_DeleteVpc {W}.
Arguments api_DescribeRouteTables {W}.
Arguments api_CreateRouteTable {W}.
Arguments api_CreateRoute {W}.
Arguments api_AssociateRouteTable {W}.

(** ** The state and the monad of the service *)

Record State (W : Type) := mkState {
  network : Network.t;      (* the *v1alpha1.Network the caller handed in *)
  world : W;                (* the provider *)
  calls : list Call }.      (* the calls issued so far, oldest first *)
Arguments mkState {W}.
Arguments network {W}.
Arguments world {W}.
Arguments calls {W}.

Definition M (W A : Type) : Type := State W → result A * State W.

Definition ret {W A} (a : A) : M W A := fun st => (Ok a, st).

Definition throw {W A} (e : error) : M W A := fun st => (Err e, st).

Definition bind {W A B} (m : M W A) (k : A → M W B) : M W B :=
  fun st =>
    match m st with
    | (Ok a, st') => k a st'
    | (Err e, st') => (Err e, st')
    end.

(** [x, err := m] without the early return: the error is a value. *)
Definition try {W A} (m : M W A) : M W (result A) :=
  fun st => let '(r, st') := m st in (Ok r, st').

Definition get {W} : M W (Network.t) := fun st => (Ok (network st), st).

Definition put {W} (n : Network.t) : M W unit :=
  fun st => (Ok tt, mkState n (world st) (calls st)).

Declare Scope go_scope.
Delimit Scope go_scope with go.
Notation "x <- m ;; k" := (bind m (fun x => k))
  (at level 100, m at next level, right associativity) : go_scope.
Notation "m ;;; k" := (bind m (fun _ => k))
  (at level 100, right associativity) : go_scope.
Local Open Scope go_scope.

(** A loop [for _, x := range xs] whose body may return an error. *)
Fixpoint forRange {W X} (xs : list X) (body : X → M W unit) : M W unit :=
  match xs with
  | [] => ret tt
  | x :: xs' => body x ;;; forRange xs' body
  end.

(** One call to the provider: the world moves and the call is recorded. *)
Definition invoke {W I O} (op : I → W → reply O * W) (record : I → reply O → Call)
    (i : I) : M W O :=
  fun st =>
    let '(o, w) := op i (world st) in
    let st' := mkState (network st) w (calls st ++ [record i o]) in
    match o with
    | Done a => (Ok a, st')
    | Failed c => (Err (AwsError c), st')
    end.

(** [if err != nil { return ..., errors.Wrapf(err, format, args...) }] *)
Definition wrapf {W A} (m : M W A) (format : string) (args : list fmtarg) : M W A :=
  fun st =>
    match m st with
    | (Ok a, st') => (Ok a, st')
    | (Err e, st') => (Err (Wrapf e format args), st')
    end.

Definition liftResult {W A} (r : result A) : M W A := fun st => (r, st).

(** The error of a Go pair [(x, err)]: [nil] on success. *)
Definition errOf {A} (r : result A) : option error :=
  match r with
  | Ok _ => None
  | Err e => Some e
  end.

(** ** The service *)

Section Service.

Context {W : Type}.

(** [s.EC2], the client. *)
Variable EC2 : EC2API W.

(** [addTagFilters] (tags.go) is not among the three files: the filter
    that it derives from the cluster's ownership tag is a parameter. *)
Variable addTagFilters : string → list ec2.Filter.t → list ec2.Filter.t.

(** [getNatGatewayForSubnet] (natgateways.go) is not among the three files:
    the lookup of the NAT gateway of a subnet's grouping among the full
    subnet list, which issues no provider call, is a parameter. *)
Variable getNatGatewayForSubnet : list Subnet.t → Subnet.t → result string.

(** *** vpc.go *)

Definition defaultVpcCidr : string := "10.0.0.0/16".

(** The [*v1alpha1.VPC] that [reconcileVPC] and [createVPC] receive is
    [&network.VPC] (network.go, line 25). *)
Definition loadVPC : M W VPC.t :=
    fun st => (Ok (Network.VPC (network st)), st).

Definition storeVPC (v : VPC.t) : M W unit :=
    fun st => (Ok tt, mkState (Network.withVPC (network st) v) (world st) (calls st)).

Definition createTags (clusterName resourceID : string) (lifecycle : ResourceLifecycle)
      (additional : list (string * string)) : M W unit :=
    invoke (api_CreateTags EC2) CreateTags
      (CreateTagsInput.mk clusterName resourceID lifecycle additional).

Definition describeVPC (clusterName id : string) : M W VPC.t :=
    let input :=
      if decide (id = "")
      then ec2.DescribeVpcsInput.mk (addTagFilters clusterName []) []
      else ec2.DescribeVpcsInput.mk [] [id] in
    out <- invoke (api_DescribeVpcs EC2) DescribeVpcs input ;;
    match out with
    | [] =>                                   (* len(out.Vpcs) == 0 *)
        throw (NewNotFound (Errorf "could not find vpc %q" [ArgString id]))
    | _ :: _ :: _ =>                          (* len(out.Vpcs) > 1 *)
        throw (NewConflict (Errorf
          "found more than one vpc with supplied filters. Please clean up extra VPCs: %s"
          [ArgVpcs out]))
    | [vpc] =>
        ret (VPC.mk (ec2.Vpc.VpcId vpc) (ec2.Vpc.CidrBlock vpc))
    end.

Definition createVPC (clusterName : string) : M W VPC.t :=
    v <- loadVPC ;;
    (if decide (VPC.CidrBlock v = "")
     then storeVPC (VPC.mk (VPC.ID v) defaultVpcCidr)
     else ret tt) ;;;
    v <- loadVPC ;;
    let input := ec2.CreateVpcInput.mk (aws.String (VPC.CidrBlock v)) in
    out <- wrapf (invoke (api_CreateVpc EC2) CreateVpc input) "failed to create vpc" [] ;;
    let wReq := ec2.DescribeVpcsInput.mk [] [ec2.Vpc.VpcId out] in
    wrapf (invoke (api_WaitUntilVpcAvailable EC2) WaitUntilVpcAvailable wReq)
      "failed to wait for vpc %q" [ArgString (ec2.Vpc.VpcId out)] ;;;
    wrapf (createTags clusterName (ec2.Vpc.VpcId out) ResourceLifecycleOwned [])
      "failed to tag vpc %q" [ArgString (ec2.Vpc.VpcId out)] ;;;
    ret (VPC.mk (ec2.Vpc.VpcId out) (ec2.Vpc.CidrBlock out)).

Definition reconcileVPC (clusterName : string) : M W unit :=
    in_ <- loadVPC ;;
    r <- try (describeVPC clusterName (VPC.ID in_)) ;;
    vpc <- (if IsNotFound (errOf r)
            then createVPC clusterName
            else liftResult r) ;;
    storeVPC vpc.                             (* vpc.DeepCopyInto(in) *)

Definition deleteVPC (v : VPC.t) : M W unit :=
    let input := ec2.DeleteVpcInput.mk (aws.String (VPC.ID v)) in
    wrapf (invoke (api_DeleteVpc EC2) DeleteVpc input)
      "failed to delete vpc %q" [ArgString (VPC.ID v)].

(** *** routetables.go *)

Definition getDefaultPrivateRoutes (natGatewayId : string) : list ec2.Route.t :=
    [ ec2.Route.mk (aws.String "0.0.0.0/0") None None None None
        (aws.String natGatewayId) None None ].

Definition getDefaultPublicRoutes (internetGatewayId : string) : list ec2.Route.t :=
    [ ec2.Route.mk (aws.String "0.0.0.0/0") None None
        (aws.String internetGatewayId) None None None None ].

Definition describeVpcRouteTables (vpcID : string) : M W (list ec2.RouteTable.t) :=
    wrapf (invoke (api_DescribeRouteTables EC2) DescribeRouteTables
             (ec2.DescribeRouteTablesInput.mk
                [ec2.Filter.mk (aws.String "vpc-id") [vpcID]]))
      "failed to describe route tables in vpc %q" [ArgString vpcID].

(** The two nested loops of [describeVpcRouteTablesBySubnet]. *)
Definition addAssociation (rt : ec2.RouteTable.t)
      (res : gmap string ec2.RouteTable.t) (as_ : ec2.RouteTableAssociation.t) :
      gmap string ec2.RouteTable.t :=
    match ec2.RouteTableAssociation.SubnetId as_ with
    | None => res                             (* continue *)
    | Some subnetId => <[subnetId := rt]> res
    end.

Definition addRouteTable (res : gmap string ec2.RouteTable.t) (rt : ec2.RouteTable.t) :
      gmap string ec2.RouteTable.t :=
    foldl (addAssociation rt) res (ec2.RouteTable.Associations rt).

Definition bySubnet (rts : list ec2.RouteTable.t) : gmap string ec2.RouteTable.t :=
    foldl addRouteTable ∅ rts.

Definition describeVpcRouteTablesBySubnet (vpcID : string) :
      M W (gmap string ec2.RouteTable.t) :=
    rts <- describeVpcRouteTables vpcID ;;
    ret (bySubnet rts).

Definition createRoute (out : ec2.RouteTable.t) (route : ec2.Route.t) : M W unit :=
    wrapf (invoke (api_CreateRoute EC2) CreateRoute
             (ec2.CreateRouteInput.mk
                (ec2.RouteTable.RouteTableId out)
                (ec2.Route.DestinationCidrBlock route)
                (ec2.Route.DestinationIpv6CidrBlock route)
                (ec2.Route.EgressOnlyInternetGatewayId route)
                (ec2.Route.GatewayId route)
                (ec2.Route.InstanceId route)
                (ec2.Route.NatGatewayId route)
                (ec2.Route.NetworkInterfaceId route)
                (ec2.Route.VpcPeeringConnectionId route)))
      "failed to create route in route table %q: %s"
      [ArgString (ec2.RouteTable.RouteTableId out); ArgRoute route].

Definition createRouteTableWithRoutes (vpc : VPC.t) (routes : list ec2.Route.t) :
      M W RouteTable.t :=
    out <- wrapf (invoke (api_CreateRouteTable EC2) CreateRouteTable
                    (ec2.CreateRouteTableInput.mk (aws.String (VPC.ID vpc))))
             "failed to create route table in vpc %q" [ArgString (VPC.ID vpc)] ;;
    forRange routes (createRoute out) ;;;
    ret (RouteTable.mk (ec2.RouteTable.RouteTableId out)).

Definition associateRouteTable (rt : RouteTable.t) (subnetID : string) : M W unit :=
    wrapf (invoke (api_AssociateRouteTable EC2) AssociateRouteTable
             (ec2.AssociateRouteTableInput.mk
                (aws.String (RouteTable.ID rt)) (aws.String subnetID)))
      "failed to associate route table %q to subnet %q"
      [ArgString (RouteTable.ID rt); ArgString subnetID].

(** Lines 42 to 56 of [reconcileRouteTables]: the routes of a subnet that
    has no table. *)
Definition defaultRoutes (in_ : Network.t) (sn : Subnet.t) : result (list ec2.Route.t) :=
    if Subnet.IsPublic sn then
      match Network.InternetGatewayID in_ with
      | None =>
          Err (Errorf "failed to create routing tables: internet gateway for %q is nil"
                 [ArgString (VPC.ID (Network.VPC in_))])
      | Some internetGatewayID => Ok (getDefaultPublicRoutes internetGatewayID)
      end
    else
      match getNatGatewayForSubnet (Network.Subnets in_) sn with
      | Err err => Err err
      | Ok natGatewayId => Ok (getDefaultPrivateRoutes natGatewayId)
      end.

(** [sn.RouteTableID = r] for the subnet at index [i] of [in.Subnets]. *)
Definition setRouteTableID (i : nat) (sn : Subnet.t) (r : option string) : M W unit :=
    in_ <- get ;;
    put (Network.withSubnets in_
           (<[i := Subnet.withRouteTableID sn r]> (Network.Subnets in_))).

(** The body of the loop of [reconcileRouteTables], at index [i]. *)
Definition reconcileSubnetRouteTable (subnetRouteMap : gmap string ec2.RouteTable.t)
      (i : nat) : M W unit :=
    in_ <- get ;;
    match Network.Subnets in_ !! i with
    | None => ret tt
    | Some sn =>
        match subnetRouteMap !! Subnet.ID sn with
        | Some igw => ret tt                  (* continue *)
        | None =>
            routes <- liftResult (defaultRoutes in_ sn) ;;
            rt <- createRouteTableWithRoutes (Network.VPC in_) routes ;;
            associateRouteTable rt (Subnet.ID sn) ;;;
            setRouteTableID i sn (aws.String (RouteTable.ID rt))
        end
    end.

Definition reconcileRouteTables : M W unit :=
    in_ <- get ;;
    subnetRouteMap <- describeVpcRouteTablesBySubnet (VPC.ID (Network.VPC in_)) ;;
    forRange (seq 0 (length (Network.Subnets in_)))
      (reconcileSubnetRouteTable subnetRouteMap).

(** *** network.go

    The reconcilers of subnets, internet gateways and NAT gateways are not
    among the three files: they are parameters. *)
Variable reconcileSubnets : M W unit.
Variable reconcileInternetGateways : M W unit.
Variable reconcileNatGateways : M W unit.

Definition ReconcileNetwork (clusterName : string) : M W unit :=
    reconcileVPC clusterName ;;;
    reconcileSubnets ;;;
    reconcileInternetGateways ;;;
    reconcileNatGateways ;;;
    reconcileRouteTables.

End Service.

(** ** A provider double

    An in-memory provider: the VPCs with their tags, the route tables with
    their routes and associations, and a counter that names what it creates.
    Describe calls read; create calls only add. *)

Module Fake.

Record vpc := mkVpc {
    desc : ec2.Vpc.t;
    tags : list (string * string) }.

Record t := mk {
    vpcs : list vpc;
    routeTables : list ec2.RouteTable.t;
    nextId : nat }.

Definition empty : t := mk [] [] 0.

Definition vpcName (k : nat) : string := "vpc-" +:+ pretty k.
Definition rtbName (k : nat) : string := "rtb-" +:+ pretty k.

Definition vpcId (v : vpc) : string := ec2.Vpc.VpcId (desc v).

(** The ownership tag of a cluster and the filter that asks for it. *)
Definition tagKey (clusterName : string) : string :=
    "kubernetes.io/cluster/" +:+ clusterName.

Definition tagValue (l : ResourceLifecycle) : string :=
    match l with
    | ResourceLifecycleOwned => "owned"
    | ResourceLifecycleShared => "shared"
    end.

Definition addTagFilters (clusterName : string) (filters : list ec2.Filter.t) :
      list ec2.Filter.t :=
    filters ++ [ec2.Filter.mk (Some ("tag:" +:+ tagKey clusterName))
                  [tagValue ResourceLifecycleOwned]].

Definition vpcMatches (v : vpc) (f : ec2.Filter.t) : Prop :=
    ec2.Filter.Name f = Some "vpc-id" ∧ vpcId v ∈ ec2.Filter.Values f
    ∨ Exists (λ kv, ec2.Filter.Name f = Some ("tag:" +:+ kv.1)
                    ∧ kv.2 ∈ ec2.Filter.Values f) (tags v).

Definition vpcSelected (i : ec2.DescribeVpcsInput.t) (v : vpc) : Prop :=
    (ec2.DescribeVpcsInput.VpcIds i = [] ∨ vpcId v ∈ ec2.DescribeVpcsInput.VpcIds i)
    ∧ Forall (vpcMatches v) (ec2.DescribeVpcsInput.Filters i).

Definition tableMatches (rt : ec2.RouteTable.t) (f : ec2.Filter.t) : Prop :=
    ec2.Filter.Name f = Some "vpc-id"
    ∧ ec2.RouteTable.VpcId rt ∈ ec2.Filter.Values f.

Definition tableSelected (i : ec2.DescribeRouteTablesInput.t)
      (rt : ec2.RouteTable.t) : Prop :=
    Forall (tableMatches rt) (ec2.DescribeRouteTablesInput.Filters i).

Definition hasVpc (w : t) (id : string) : Prop := id ∈ (vpcId <$> vpcs w).

Definition hasTable (w : t) (id : string) : Prop :=
    id ∈ (ec2.RouteTable.RouteTableId <$> routeTables w).

#[global] Instance vpcMatches_dec v f : Decision (vpcMatches v f).
Proof. unfold vpcMatches. apply _. Defined.

#[global] Instance vpcSelected_dec i v : Decision (vpcSelected i v).
Proof. unfold vpcSelected. apply _. Defined.

#[global] Instance tableMatches_dec rt f : Decision (tableMatches rt f).
Proof. unfold tableMatches. apply _. Defined.

#[global] Instance tableSelected_dec i rt : Decision (tableSelected i rt).
Proof. unfold tableSelected. apply _. Defined.

#[global] Instance hasVpc_dec w id : Decision (hasVpc w id).
Proof. unfold hasVpc. apply _. Defined.

#[global] Instance hasTable_dec w id : Decision (hasTable w id).
Proof. unfold hasTable. apply _. Defined.

Definition DescribeVpcs (i : ec2.DescribeVpcsInput.t) (w : t) :
      reply (list ec2.Vpc.t) * t :=
    (Done (desc <$> filter (vpcSelected i) (vpcs w)), w).

Definition CreateVpc (i : ec2.CreateVpcInput.t) (w : t) : reply ec2.Vpc.t * t :=
    match ec2.CreateVpcInput.CidrBlock i with
    | None => (Failed "MissingParameter", w)
    | Some cidr =>
        let v := ec2.Vpc.mk (vpcName (nextId w)) cidr in
        (Done v, mk (vpcs w ++ [mkVpc v []]) (routeTables w) (S (nextId w)))
    end.

Definition WaitUntilVpcAvailable (i : ec2.DescribeVpcsInput.t) (w : t) :
      reply unit * t :=
    if decide (Forall (hasVpc w) (ec2.DescribeVpcsInput.VpcIds i))
    then (Done tt, w)
    else (Failed "ResourceNotReady", w).

Definition tagVpc (id : string) (kv : string * string) (v : vpc) : vpc :=
    if decide (vpcId v = id) then mkVpc (desc v) (tags v ++ [kv]) else v.

Definition CreateTags (i : CreateTagsInput.t) (w : t) : reply unit * t :=
    if decide (hasVpc w (CreateTagsInput.resourceID i))
    then (Done tt,
          mk (tagVpc (CreateTagsInput.resourceID i)
                (tagKey (CreateTagsInput.clusterName i),
                 tagValue (CreateTagsInput.lifecycle i)) <$> vpcs w)
             (routeTables w) (nextId w))
    else (Failed "InvalidID", w).

Definition DeleteVpc (i : ec2.DeleteVpcInput.t) (w : t) : reply unit * t :=
    match ec2.DeleteVpcInput.VpcId i with
    | None => (Failed "MissingParameter", w)
    | Some id =>
        if decide (hasVpc w id)
        then (Done tt, mk (filter (λ v, vpcId v ≠ id) (vpcs w)) (routeTables w) (nextId w))
        else (Failed "InvalidVpcID.NotFound", w)
    end.

Definition DescribeRouteTables (i : ec2.DescribeRouteTablesInput.t) (w : t) :
      reply (list ec2.RouteTable.t) * t :=
    (Done (filter (tableSelected i) (routeTables w)), w).

Definition CreateRouteTable (i : ec2.CreateRouteTableInput.t) (w : t) :
      reply ec2.RouteTable.t * t :=
    match ec2.CreateRouteTableInput.VpcId i with
    | None => (Failed "MissingParameter", w)
    | Some vpcID =>
        let rt := ec2.RouteTable.mk (rtbName (nextId w)) vpcID [] [] in
        (Done rt, mk (vpcs w) (routeTables w ++ [rt]) (S (nextId w)))
    end.

Definition routeOf (i : ec2.CreateRouteInput.t) : ec2.Route.t :=
    ec2.Route.mk
      (ec2.CreateRouteInput.DestinationCidrBlock i)
      (ec2.CreateRouteInput.DestinationIpv6CidrBlock i)
      (ec2.CreateRouteInput.EgressOnlyInternetGatewayId i)
      (ec2.CreateRouteInput.GatewayId i)
      (ec2.CreateRouteInput.InstanceId i)
      (ec2.CreateRouteInput.NatGatewayId i)
      (ec2.CreateRouteInput.NetworkInterfaceId i)
      (ec2.CreateRouteInput.VpcPeeringConnectionId i).

Definition addRoute (id : string) (r : ec2.Route.t) (rt : ec2.RouteTable.t) :
      ec2.RouteTable.t :=
    if decide (ec2.RouteTable.RouteTableId rt = id)
    then ec2.RouteTable.mk (ec2.RouteTable.RouteTableId rt) (ec2.RouteTable.VpcId rt)
           (ec2.RouteTable.Routes rt ++ [r]) (ec2.RouteTable.Associations rt)
    else rt.

Definition CreateRoute (i : ec2.CreateRouteInput.t) (w : t) : reply unit * t :=
    if decide (hasTable w (ec2.CreateRouteInput.RouteTableId i))
    then (Done tt,
          mk (vpcs w)
             (addRoute (ec2.CreateRouteInput.RouteTableId i) (routeOf i) <$> routeTables w)
             (nextId w))
    else (Failed "InvalidRouteTableID.NotFound", w).

Definition addSubnet (id subnetID : string) (rt : ec2.RouteTable.t) : ec2.RouteTable.t :=
    if decide (ec2.RouteTable.RouteTableId rt = id)
    then ec2.RouteTable.mk (ec2.RouteTable.RouteTableId rt) (ec2.RouteTable.VpcId rt)
           (ec2.RouteTable.Routes rt)
           (ec2.RouteTable.Associations rt
              ++ [ec2.RouteTableAssociation.mk (Some subnetID)])
    else rt.

Definition AssociateRouteTable (i : ec2.AssociateRouteTableInput.t) (w : t) :
      reply unit * t :=
    match ec2.AssociateRouteTableInput.RouteTableId i,
          ec2.AssociateRouteTableInput.SubnetId i with
    | Some id, Some subnetID =>
        if decide (hasTable w id)
        then (Done tt, mk (vpcs w) (addSubnet id subnetID <$> routeTables w) (nextId w))
        else (Failed "InvalidRouteTableID.NotFound", w)
    | _, _ => (Failed "MissingParameter", w)
    end.

Definition EC2 : EC2API t := {|
    api_DescribeVpcs := DescribeVpcs;
    api_CreateVpc := CreateVpc;
    api_WaitUntilVpcAvailable := WaitUntilVpcAvailable;
    api_CreateTags := CreateTags;
    api_DeleteVpc := DeleteVpc;
    api_DescribeRouteTables := DescribeRouteTables;
    api_CreateRouteTable := CreateRouteTable;
    api_CreateRoute := CreateRoute;
    api_AssociateRouteTable := AssociateRouteTable |}.

(** The identifiers of the VPCs are distinct and not empty, and the names
    that the counter has yet to hand out are unused. *)
Definition wf (w : t) : Prop :=
    NoDup (vpcId <$> vpcs w)
    ∧ ("" ∉ (vpcId <$> vpcs w))
    ∧ (∀ k : nat, (nextId w ≤ k)%nat → vpcName k ∉ (vpcId <$> vpcs w)).




(** Modelled from the spec: the NAT gateway of a private subnet is looked
    up by the subnet's grouping among the full subnet list, and the lookup
    fails when no subnet of the grouping has one. *)
Definition getNatGatewayForSubnet (subnets : list Subnet.t) (sn : Subnet.t) :
      result string :=
    match
      omap Subnet.NatGatewayID
        (filter (λ s, Subnet.AvailabilityZone s = Subnet.AvailabilityZone sn) subnets)
    with
    | natGatewayId :: _ => Ok natGatewayId
    | [] =>
        Err (Errorf "no nat gateways available in %q for private subnet %q"
               [ArgString (Subnet.AvailabilityZone sn); ArgString (Subnet.ID sn)])
    end.

End Fake.

(** The pipeline of [ReconcileNetwork] against the provider double, with
    the subnets and the gateways already resolved: the three reconcilers
    that are not among the three files do nothing. *)
Definition reconcileWithFake (getNat : list Subnet.t → Subnet.t → result string)
    (clusterName : string) : M Fake.t unit :=
  ReconcileNetwork Fake.EC2 Fake.addTagFilters getNat (ret tt) (ret tt) (ret tt) clusterName.

(** A provider that fails on schedule: the calls are counted, and a call
    whose number is listed fails without reaching the provider behind. *)
Module Faulty.

Record t (W : Type) := mk {
    inner : W;
    clock : nat;
    faults : list nat }.
Arguments mk {W}.
Arguments inner {W}.
Arguments clock {W}.
Arguments faults {W}.

Definition op {W I O} (f : I → W → reply O * W) (i : I) (w : t W) : reply O * t W :=
    if decide (clock w ∈ faults w)
    then (Failed "InjectedFault", mk (inner w) (S (clock w)) (faults w))
    else let '(o, w') := f i (inner w) in (o, mk w' (S (clock w)) (faults w)).

Definition EC2 {W} (api : EC2API W) : EC2API (t W) := {|
    api_DescribeVpcs := op (api_DescribeVpcs api);
    api_CreateVpc := op (api_CreateVpc api);
    api_WaitUntilVpcAvailable := op (api_WaitUntilVpcAvailable api);
    api_CreateTags := op (api_CreateTags api);
    api_DeleteVpc := op (api_DeleteVpc api);
    api_DescribeRouteTables := op (api_DescribeRouteTables api);
    api_CreateRouteTable := op (api_CreateRouteTable api);
    api_CreateRoute := op (api_CreateRoute api);
    api_AssociateRouteTable := op (api_AssociateRouteTable api) |}.

End Faulty.

(** ** Vocabulary of the statements *)

(** The query that [describeVPC] sends: by identifier when there is one, by
    the cluster's ownership tag otherwise. *)
Definition locatorInput (addTagFilters : string → list ec2.Filter.t → list ec2.Filter.t)
    (clusterName id : string) : ec2.DescribeVpcsInput.t :=
  if decide (id = "")
  then ec2.DescribeVpcsInput.mk (addTagFilters clusterName []) []
  else ec2.DescribeVpcsInput.mk [] [id].

(** The target fields of a route that are set. *)
Definition targets (r : ec2.Route.t) : list string :=
  omap id [ ec2.Route.EgressOnlyInternetGatewayId r;
            ec2.Route.GatewayId r;
            ec2.Route.InstanceId r;
            ec2.Route.NatGatewayId r;
            ec2.Route.NetworkInterfaceId r;
            ec2.Route.VpcPeeringConnectionId r ].

(** The tables of a list that have an association with a subnet. *)
Definition associates (subnetID : string) (rt : ec2.RouteTable.t) : Prop :=
  Some subnetID ∈ (ec2.RouteTableAssociation.SubnetId <$> ec2.RouteTable.Associations rt).

#[global] Instance associates_dec subnetID rt : Decision (associates subnetID rt).
Proof. unfold associates. apply _. Defined.

(** The input of the create-route call for a route of a table. *)
Definition createRouteInput (rt : ec2.RouteTable.t) (route : ec2.Route.t) :
    ec2.CreateRouteInput.t :=
  ec2.CreateRouteInput.mk
    (ec2.RouteTable.RouteTableId rt)
    (ec2.Route.DestinationCidrBlock route)
    (ec2.Route.DestinationIpv6CidrBlock route)
    (ec2.Route.EgressOnlyInternetGatewayId route)
    (ec2.Route.GatewayId route)
    (ec2.Route.InstanceId route)
    (ec2.Route.NatGatewayId route)
    (ec2.Route.NetworkInterfaceId route)
    (ec2.Route.VpcPeeringConnectionId route).

(** A create-route call that the provider accepted. *)
Definition createRouteDone (out : ec2.RouteTable.t) (route : ec2.Route.t) : Call :=
  CreateRoute (createRouteInput out route) (Done tt).

(** The calls of a subnet that went through the creation path with success:
    one table, its routes in order, one association. *)
Definition creationCalls (vpcID : string) (out : ec2.RouteTable.t)
    (routes : list ec2.Route.t) (subnetID : string) : list Call :=
  CreateRouteTable (ec2.CreateRouteTableInput.mk (Some vpcID)) (Done out)
  :: (createRouteDone out <$> routes)
  ++ [AssociateRouteTable
        (ec2.AssociateRouteTableInput.mk
           (Some (ec2.RouteTable.RouteTableId out)) (Some subnetID))
        (Done tt)].

(** The world after the provider has accepted the routes of a list for a
    table, one after the other; [None] when it refuses one. *)
Fixpoint acceptRoutes {W} (EC2 : EC2API W) (out : ec2.RouteTable.t)
    (routes : list ec2.Route.t) (w : W) : option W :=
  match routes with
  | [] => Some w
  | route :: routes' =>
      match api_CreateRoute EC2 (createRouteInput out route) w with
      | (Done _, w') => acceptRoutes EC2 out routes' w'
      | (Failed _, _) => None
      end
  end.

(** The block that [createVPC] asks for: the caller's, or the default. *)
Definition requestedCidr (v : VPC.t) : string :=
  if decide (VPC.CidrBlock v = "") then defaultVpcCidr else VPC.CidrBlock v.

(** The calls that a computation has added to the record. *)
Definition issued {W} (st st' : State W) : list Call :=
  drop (length (calls st)) (calls st').

Definition isTableCreation (c : Call) : bool :=
  match c with
  | CreateRouteTable _ _ => true
  | _ => false
  end.

(** What a successful pass does, subnet by subnet in the order of the list:
    a subnet that the map knows is left as it is and no call is issued for
    it; for any other subnet one table is created, its routes are created,
    the table is associated with that subnet, and its id is written to the
    subnet. *)
Inductive pass (m : gmap string ec2.RouteTable.t) (vpcID : string) :
    list Subnet.t → list Subnet.t → list Call → Prop :=
| pass_done : pass m vpcID [] [] []
| pass_skip sn sns sns' cs :
    is_Some (m !! Subnet.ID sn) →
    pass m vpcID sns sns' cs →
    pass m vpcID (sn :: sns) (sn :: sns') cs
| pass_create sn sns sns' cs out routes :
    m !! Subnet.ID sn = None →
    pass m vpcID sns sns' cs →
    pass m vpcID (sn :: sns)
      (Subnet.withRouteTableID sn (Some (ec2.RouteTable.RouteTableId out)) :: sns')
      (creationCalls vpcID out routes (Subnet.ID sn) ++ cs).

(** The caller's VPC is one of the provider's. *)
Definition present (w : Fake.t) (v : VPC.t) : Prop :=
  ∃ fv, fv ∈ Fake.vpcs w ∧ Fake.desc fv = ec2.Vpc.mk (VPC.ID v) (VPC.CidrBlock v).


(** Two subnets that differ in the table id at most. *)
Definition sameButTable (sn sn' : Subnet.t) : Prop :=
  Subnet.ID sn' = Subnet.ID sn
  ∧ Subnet.AvailabilityZone sn' = Subnet.AvailabilityZone sn
  ∧ Subnet.IsPublic sn' = Subnet.IsPublic sn
  ∧ Subnet.NatGatewayID sn' = Subnet.NatGatewayID sn.

(** The calls of the route table reconciler and of the VPC reconciler. *)
Definition isRouteTableCall (c : Call) : bool :=
  match c with
  | DescribeRouteTables _ _ | CreateRouteTable _ _ | CreateRoute _ _
  | AssociateRouteTable _ _ => true
  | _ => false
  end.

Definition isVpcCall (c : Call) : bool :=
  match c with
  | DescribeVpcs _ _ | CreateVpc _ _ | WaitUntilVpcAvailable _ _ | CreateTags _ _ => true
  | _ => false
  end.

Definition isDescribeRouteTables (c : Call) : bool :=
  match c with
  | DescribeRouteTables _ _ => true
  | _ => false
  end.

(** The route that a create-route call carries. *)
Definition routeSent (c : Call) : option ec2.Route.t :=
  match c with
  | CreateRoute i _ => Some (Fake.routeOf i)
  | _ => None
  end.

(** ** Scenarios *)

Module Example.

Definition publicSubnet : Subnet.t :=
  Subnet.mk "subnet-1" "eu-west-1a" true None (Some "nat-1").

Definition privateSubnet : Subnet.t :=
  Subnet.mk "subnet-2" "eu-west-1a" false None None.

(** No address block, a public and a private subnet without tables, and no
    VPC at the provider. *)
Definition desired : Network.t :=
  Network.mk (VPC.mk "" "") (Some "igw-1") [publicSubnet; privateSubnet].

Definition fresh : State Fake.t := mkState desired Fake.empty [].

(** The state that the pipeline leaves when it is run on [fresh]. *)
Definition converged : State Fake.t :=
  Eval vm_compute in (reconcileWithFake Fake.getNatGatewayForSubnet "cluster" fresh).2.

(** A VPC at the provider, without tables. *)
Definition oneVpc : Fake.t :=
  Fake.mk [Fake.mkVpc (ec2.Vpc.mk "vpc-0" "10.0.0.0/16") []] [] 1.

(** A VPC whose only subnet has a table at the provider that the caller's
    struct does not record. *)
Definition associatedWorld : Fake.t :=
  Fake.mk [Fake.mkVpc (ec2.Vpc.mk "vpc-0" "10.0.0.0/16") []]
    [ec2.RouteTable.mk "rtb-0" "vpc-0" []
       [ec2.RouteTableAssociation.mk (Some "subnet-1")]]
    1.

Definition unrecorded : State Fake.t :=
  mkState (Network.mk (VPC.mk "vpc-0" "10.0.0.0/16") (Some "igw-1") [publicSubnet])
    associatedWorld [].

(** A private subnet followed by a public one, and no internet gateway. *)
Definition noGateway : State Fake.t :=
  mkState (Network.mk (VPC.mk "vpc-0" "10.0.0.0/16") None [privateSubnet; publicSubnet])
    oneVpc [].

(** The provider fails on its [n]-th call, counted from 0. *)
Definition failing (n : nat) (net : Network.t) (w : Fake.t) : State (Faulty.t Fake.t) :=
  mkState net (Faulty.mk w 0 [n]) [].

Definition withVpc : Network.t :=
  Network.mk (VPC.mk "vpc-0" "10.0.0.0/16") (Some "igw-1") [publicSubnet; privateSubnet].

Definition r1 : ec2.Route.t :=
  ec2.Route.mk (Some "0.0.0.0/0") None None (Some "igw-1") None None None None.

Definition r2 : ec2.Route.t :=
  ec2.Route.mk (Some "10.1.0.0/16") None None None None (Some "nat-1") None None.

Definition vpc0 : VPC.t := VPC.mk "vpc-0" "10.0.0.0/16".

(** A table with two routes, against a provider that refuses the second. *)
Definition twoRoutes : result RouteTable.t * State (Faulty.t Fake.t) :=
  createRouteTableWithRoutes (Faulty.EC2 Fake.EC2) vpc0 [r1; r2]
    (failing 2 withVpc oneVpc).

(** A pass against a provider that refuses the route of the first subnet. *)
Definition refused : result unit * State (Faulty.t Fake.t) :=
  reconcileRouteTables (Faulty.EC2 Fake.EC2) Fake.getNatGatewayForSubnet
    (failing 2 withVpc oneVpc).

(** Two VPCs that carry the tag of the cluster. *)
Definition twoVpcs : Fake.t :=
  Fake.mk
    [ Fake.mkVpc (ec2.Vpc.mk "vpc-0" "10.0.0.0/16")
        [("kubernetes.io/cluster/cluster", "owned")];
      Fake.mkVpc (ec2.Vpc.mk "vpc-1" "10.1.0.0/16")
        [("kubernetes.io/cluster/cluster", "owned")] ]
    [] 2.

Definition ambiguous : State Fake.t := mkState desired twoVpcs [].

End Example.

(** ** Further scenarios *)

Module Cases.

(** A private subnet in a zone without a NAT gateway. *)
Definition noNatGateway : State Fake.t :=
  mkState (Network.mk Example.vpc0 (Some "igw-1") [Example.privateSubnet]) Example.oneVpc [].

(** A provider that refuses the first association. *)
Definition associationRefused : State (Faulty.t Fake.t) :=
  Example.failing 3 Example.withVpc Example.oneVpc.

Definition tableA : ec2.RouteTable.t :=
  ec2.RouteTable.mk "rtb-a" "vpc-0" [] [ec2.RouteTableAssociation.mk (Some "subnet-1")].

Definition tableB : ec2.RouteTable.t :=
  ec2.RouteTable.mk "rtb-b" "vpc-0" []
    [ec2.RouteTableAssociation.mk None; ec2.RouteTableAssociation.mk (Some "subnet-2")].

(** The state that the VPC reconciler leaves when it is run on
    [Example.fresh]. *)
Definition vpcCreated : State Fake.t :=
  Eval vm_compute in (reconcileVPC Fake.EC2 Fake.addTagFilters "cluster" Example.fresh).2.


End Cases.

(** * Properties *)

(** ** Running the monad *)

Ltac unfold_run :=
  unfold createTags, loadVPC, storeVPC in *;
  unfold bind, ret, throw, try, get, put, wrapf, invoke, liftResult in *.

#[local] Arguments describeVPC : simpl never.
#[local] Arguments createVPC : simpl never.
#[local] Arguments reconcileVPC : simpl never.

Section VpcFacts.

Context {W : Type}.
Variable EC2 : EC2API W.
Variable tagf : string → list ec2.Filter.t → list ec2.Filter.t.

(** [describeVPC] is one describe call followed by a case on the reply. *)
Lemma describeVPC_run clusterName id (st : State W) :
  describeVPC EC2 tagf clusterName id st =
    let q := locatorInput tagf clusterName id in
    let '(o, w) := api_DescribeVpcs EC2 q (world st) in
    let st' := mkState (network st) w (calls st ++ [DescribeVpcs q o]) in
    match o with
    | Failed c => (Err (AwsError c), st')
    | Done [] =>
        (Err (NewNotFound (Errorf "could not find vpc %q" [ArgString id])), st')
    | Done [vpc] => (Ok (VPC.mk (ec2.Vpc.VpcId vpc) (ec2.Vpc.CidrBlock vpc)), st')
    | Done vpcs =>
        (Err (NewConflict (Errorf
           "found more than one vpc with supplied filters. Please clean up extra VPCs: %s"
           [ArgVpcs vpcs])), st')
    end.
Proof.
  unfold describeVPC, locatorInput. unfold_run.
  destruct (decide (id = "")); cbn;
    destruct (api_DescribeVpcs _ _ _) as [[[|v [|v' vs]]|c] w]; reflexivity.
Qed.

(** [createVPC] writes the block it asks for into the caller's struct, then
    issues create, wait and tag, stopping at the first that fails. *)
Lemma createVPC_run clusterName (st : State W) :
  createVPC EC2 clusterName st =
    let v := Network.VPC (network st) in
    let n := Network.withVPC (network st) (VPC.mk (VPC.ID v) (requestedCidr v)) in
    let i1 := ec2.CreateVpcInput.mk (Some (requestedCidr v)) in
    let '(o1, w1) := api_CreateVpc EC2 i1 (world st) in
    let cs1 := calls st ++ [CreateVpc i1 o1] in
    match o1 with
    | Failed c => (Err (Wrapf (AwsError c) "failed to create vpc" []), mkState n w1 cs1)
    | Done out =>
        let id := ec2.Vpc.VpcId out in
        let i2 := ec2.DescribeVpcsInput.mk [] [id] in
        let '(o2, w2) := api_WaitUntilVpcAvailable EC2 i2 w1 in
        let cs2 := cs1 ++ [WaitUntilVpcAvailable i2 o2] in
        match o2 with
        | Failed c =>
            (Err (Wrapf (AwsError c) "failed to wait for vpc %q" [ArgString id]),
             mkState n w2 cs2)
        | Done _ =>
            let i3 := CreateTagsInput.mk clusterName id ResourceLifecycleOwned [] in
            let '(o3, w3) := api_CreateTags EC2 i3 w2 in
            let cs3 := cs2 ++ [CreateTags i3 o3] in
            match o3 with
            | Failed c =>
                (Err (Wrapf (AwsError c) "failed to tag vpc %q" [ArgString id]),
                 mkState n w3 cs3)
            | Done _ => (Ok (VPC.mk id (ec2.Vpc.CidrBlock out)), mkState n w3 cs3)
            end
        end
    end.
Proof.
  unfold createVPC, requestedCidr. unfold_run. cbn.
  destruct st as [[[vid cidr] igw sns] w cs]; cbn.
  destruct (decide (cidr = "")) as [->|Hne]; cbn.
  - destruct (api_CreateVpc _ _ _) as [[out|c] w1]; cbn; [|reflexivity].
    destruct (api_WaitUntilVpcAvailable _ _ _) as [[[]|c] w2]; cbn; [|reflexivity].
    destruct (api_CreateTags _ _ _) as [[[]|c] w3]; reflexivity.
  - destruct (api_CreateVpc _ _ _) as [[out|c] w1]; cbn; [|reflexivity].
    destruct (api_WaitUntilVpcAvailable _ _ _) as [[[]|c] w2]; cbn; [|reflexivity].
    destruct (api_CreateTags _ _ _) as [[[]|c] w3]; reflexivity.
Qed.

(** [reconcileVPC]: locate; create when the locator says NotFound; return
    any other error of the locator; copy the result into the caller's struct. *)
Lemma reconcileVPC_run clusterName (st : State W) :
  reconcileVPC EC2 tagf clusterName st =
    match describeVPC EC2 tagf clusterName (VPC.ID (Network.VPC (network st))) st with
    | (Ok vpc, st1) =>
        (Ok tt, mkState (Network.withVPC (network st1) vpc) (world st1) (calls st1))
    | (Err (NewNotFound e), st1) =>
        match createVPC EC2 clusterName st1 with
        | (Ok vpc, st2) =>
            (Ok tt, mkState (Network.withVPC (network st2) vpc) (world st2) (calls st2))
        | (Err e', st2) => (Err e', st2)
        end
    | (Err e, st1) => (Err e, st1)
    end.
Proof.
  unfold reconcileVPC. unfold_run. cbn.
  destruct (describeVPC _ _ _ _ _) as [[vpc|e] st1]; cbn; [reflexivity|].
  destruct e; reflexivity.
Qed.

(** C3.  [describeVPC] sends one describe call, by the explicit identifier
    when [id] is not empty and by the cluster's ownership-tag filter
    otherwise, and its result is decided by the number of matches: none is a
    NotFound error, one is that VPC's [{id, addressBlock}], more than one is
    a Conflict error that carries the candidates.  On a conflict
    [reconcileVPC] returns that error having issued the describe call
    alone: nothing is created and the caller's struct is untouched. *)
Theorem describeVPC_locates_by_match_count clusterName id (st : State W) :
  let q := if decide (id = "")
           then ec2.DescribeVpcsInput.mk (tagf clusterName []) []
           else ec2.DescribeVpcsInput.mk [] [id] in
  let o := (api_DescribeVpcs EC2 q (world st)).1 in
  let w := (api_DescribeVpcs EC2 q (world st)).2 in
  let st' := mkState (network st) w (calls st ++ [DescribeVpcs q o]) in
  (describeVPC EC2 tagf clusterName id st).2 = st'
  ∧ (∀ vpcs, o = Done vpcs →
       (length vpcs = 0 →
          ∃ e, (describeVPC EC2 tagf clusterName id st).1 = Err (NewNotFound e))
       ∧ (∀ vpc, vpcs = [vpc] →
            (describeVPC EC2 tagf clusterName id st).1
            = Ok (VPC.mk (ec2.Vpc.VpcId vpc) (ec2.Vpc.CidrBlock vpc)))
       ∧ (1 < length vpcs →
            ∃ format,
              (describeVPC EC2 tagf clusterName id st).1
              = Err (NewConflict (Errorf format [ArgVpcs vpcs]))
              ∧ (VPC.ID (Network.VPC (network st)) = id →
                 reconcileVPC EC2 tagf clusterName st
                 = (Err (NewConflict (Errorf format [ArgVpcs vpcs])), st')))).
Proof.
  intros q o w st'.
  assert (Hq : q = locatorInput tagf clusterName id) by reflexivity.
  pose proof (describeVPC_run clusterName id st) as Hrun. cbn zeta in Hrun.
  rewrite <- Hq in Hrun.
  assert (Ho : api_DescribeVpcs EC2 q (world st) = (o, w))
    by (subst o w; destruct (api_DescribeVpcs _ _ _); reflexivity).
  rewrite Ho in Hrun. fold st' in Hrun.
  split.
  - rewrite Hrun. destruct o as [[|v [|v' vs]]|c]; reflexivity.
  - intros vpcs ->. rewrite Hrun. repeat split.
    + intros Hlen. destruct vpcs; [eauto | discriminate].
    + intros vpc ->. reflexivity.
    + intros Hlen. destruct vpcs as [|v [|v' vs]]; cbn in Hlen; try lia.
      eexists. split; [reflexivity|].
      intros Hid. rewrite reconcileVPC_run, Hid, Hrun. reflexivity.
Qed.

Lemma issued_app (st st' : State W) cs :
  calls st' = calls st ++ cs → issued st st' = cs.
Proof. intros H. unfold issued. by rewrite H, drop_app_length. Qed.

(** C5.  When the locator reports NotFound, [reconcileVPC] asks for a VPC
    with the desired address block, or with 10.0.0.0/16 when the desired
    block is empty, waits until the new VPC is available, tags it as owned
    by the cluster, and leaves the provider's [{id, addressBlock}] in the
    caller's struct: four calls, the last of which is the only tagging call.
    When the locator finds one VPC, [reconcileVPC] adopts it with the
    describe call alone.  Whatever the provider answers, a pass issues at
    most one tagging call, and none unless the locator found nothing and the
    create and wait calls succeeded. *)
Theorem reconcileVPC_creates_or_adopts clusterName (st : State W) :
  let in_ := Network.VPC (network st) in
  let q := locatorInput tagf clusterName (VPC.ID in_) in
  let cidr := if decide (VPC.CidrBlock in_ = "") then "10.0.0.0/16" else VPC.CidrBlock in_ in
  (∀ w1 out w2 w3 w4,
     api_DescribeVpcs EC2 q (world st) = (Done [], w1) →
     api_CreateVpc EC2 (ec2.CreateVpcInput.mk (Some cidr)) w1 = (Done out, w2) →
     api_WaitUntilVpcAvailable EC2
       (ec2.DescribeVpcsInput.mk [] [ec2.Vpc.VpcId out]) w2 = (Done tt, w3) →
     api_CreateTags EC2
       (CreateTagsInput.mk clusterName (ec2.Vpc.VpcId out) ResourceLifecycleOwned []) w3
       = (Done tt, w4) →
     reconcileVPC EC2 tagf clusterName st
     = (Ok tt,
        mkState
          (Network.withVPC (network st)
             (VPC.mk (ec2.Vpc.VpcId out) (ec2.Vpc.CidrBlock out)))
          w4
          (calls st ++
             [ DescribeVpcs q (Done []);
               CreateVpc (ec2.CreateVpcInput.mk (Some cidr)) (Done out);
               WaitUntilVpcAvailable
                 (ec2.DescribeVpcsInput.mk [] [ec2.Vpc.VpcId out]) (Done tt);
               CreateTags
                 (CreateTagsInput.mk clusterName (ec2.Vpc.VpcId out)
                    ResourceLifecycleOwned [])
                 (Done tt) ])))
  ∧ (∀ vpc w1,
       api_DescribeVpcs EC2 q (world st) = (Done [vpc], w1) →
       reconcileVPC EC2 tagf clusterName st
       = (Ok tt,
          mkState
            (Network.withVPC (network st)
               (VPC.mk (ec2.Vpc.VpcId vpc) (ec2.Vpc.CidrBlock vpc)))
            w1
            (calls st ++ [DescribeVpcs q (Done [vpc])])))
  ∧ (let st' := (reconcileVPC EC2 tagf clusterName st).2 in
     (length (List.filter isTagging (issued st st')) ≤ 1)%nat
     ∧ (List.filter isTagging (issued st st') ≠ [] →
        ∃ out,
          issued st st' !! 0 = Some (DescribeVpcs q (Done []))
          ∧ issued st st' !! 1
            = Some (CreateVpc (ec2.CreateVpcInput.mk (Some cidr)) (Done out))
          ∧ issued st st' !! 2
            = Some (WaitUntilVpcAvailable
                      (ec2.DescribeVpcsInput.mk [] [ec2.Vpc.VpcId out]) (Done tt)))).
Proof.
  intros in_ q cidr.
  assert (Hcidr : cidr = requestedCidr in_) by reflexivity.
  pose proof (reconcileVPC_run clusterName st) as Hrun.
  remember (reconcileVPC EC2 tagf clusterName st) as R eqn:HR. clear HR.
  rewrite describeVPC_run in Hrun. cbn zeta in Hrun. fold in_ q in Hrun.
  split; [|split].
  - intros w1 out w2 w3 w4 H1 H2 H3 H4.
    rewrite H1, createVPC_run in Hrun. cbn in Hrun. fold in_ in Hrun.
    rewrite <- Hcidr, H2 in Hrun. cbn in Hrun. rewrite H3 in Hrun. cbn in Hrun.
    rewrite H4 in Hrun. rewrite Hrun. cbn.
    by rewrite <- !app_assoc.
  - intros vpc w1 H1. rewrite H1 in Hrun. by rewrite Hrun.
  - cbn zeta. rewrite Hrun. clear Hrun.
    destruct (api_DescribeVpcs _ _ _) as [[[|v [|v' vs]]|c] w1]; cbn;
      try (erewrite issued_app by reflexivity; cbn; split; [lia | congruence]).
    rewrite createVPC_run. cbn. fold in_. rewrite <- Hcidr.
    destruct (api_CreateVpc _ _ _) as [[out|c] w2]; cbn;
      [| erewrite issued_app by (cbn; by rewrite <- ?app_assoc); cbn;
         split; [lia | congruence]].
    destruct (api_WaitUntilVpcAvailable _ _ _) as [[[]|c] w3]; cbn;
      [| erewrite issued_app by (cbn; by rewrite <- ?app_assoc); cbn;
         split; [lia | congruence]].
    destruct (api_CreateTags _ _ _) as [[[]|c] w4]; cbn;
      (erewrite issued_app by (cbn; by rewrite <- ?app_assoc)); cbn;
      (split; [lia | intros _; by exists out]).
Qed.

(** C8, at the describe call of [describeVPC]: when the provider fails, the
    error that [describeVPC] returns, and that [reconcileVPC] hands on, is
    the provider's own, with no wrapper around it: no operation and no
    identifier are named. *)
Theorem describeVPC_returns_provider_failure_bare clusterName id (st : State W) c w :
  api_DescribeVpcs EC2 (locatorInput tagf clusterName id) (world st) = (Failed c, w) →
  ∃ e,
    (describeVPC EC2 tagf clusterName id st).1 = Err e
    ∧ (VPC.ID (Network.VPC (network st)) = id →
       (reconcileVPC EC2 tagf clusterName st).1 = Err e)
    ∧ e = AwsError c
    ∧ bare e = true
    ∧ context e = [].
Proof.
  intros H. exists (AwsError c).
  pose proof (describeVPC_run clusterName id st) as Hrun. cbn zeta in Hrun.
  rewrite H in Hrun.
  repeat split.
  - by rewrite Hrun.
  - intros Hid. by rewrite reconcileVPC_run, Hid, Hrun.
Qed.

(** C9.  When the desired address block is empty, [createVPC] asks the
    provider for 10.0.0.0/16 and the caller's struct holds that block when
    [createVPC] returns, whatever the create, wait and tag calls answered:
    on an error the caller's desired state has changed all the same, and
    [reconcileVPC] returns that error with the struct changed. *)
Theorem createVPC_defaults_callers_struct clusterName (st : State W) :
  VPC.CidrBlock (Network.VPC (network st)) = "" →
  let v := Network.VPC (network st) in
  let st' := (createVPC EC2 clusterName st).2 in
  Network.VPC (network st') = VPC.mk (VPC.ID v) "10.0.0.0/16"
  ∧ (∃ o, issued st st' !! 0
          = Some (CreateVpc (ec2.CreateVpcInput.mk (Some "10.0.0.0/16")) o))
  ∧ (∀ e, (createVPC EC2 clusterName st).1 = Err e →
          Network.VPC (network st') ≠ v)
  ∧ (∀ w1 e,
       api_DescribeVpcs EC2 (locatorInput tagf clusterName (VPC.ID v)) (world st)
       = (Done [], w1) →
       (reconcileVPC EC2 tagf clusterName st).1 = Err e →
       Network.VPC (network (reconcileVPC EC2 tagf clusterName st).2)
       = VPC.mk (VPC.ID v) "10.0.0.0/16").
Proof.
  intros Hempty v st'.
  assert (Hreq : requestedCidr v = "10.0.0.0/16").
  { unfold requestedCidr. subst v. by rewrite Hempty. }
  assert (Hcreate : ∀ st0 : State W,
            Network.VPC (network st0) = v →
            Network.VPC (network (createVPC EC2 clusterName st0).2)
            = VPC.mk (VPC.ID v) "10.0.0.0/16"
            ∧ ∃ o, issued st0 (createVPC EC2 clusterName st0).2 !! 0
                   = Some (CreateVpc (ec2.CreateVpcInput.mk (Some "10.0.0.0/16")) o)).
  { intros st0 Hv. rewrite createVPC_run. cbn zeta. rewrite Hv, Hreq.
    destruct (api_CreateVpc _ _ _) as [[out|c] w1]; cbn.
    2: { split; [done|]. eexists. erewrite issued_app by reflexivity. reflexivity. }
    destruct (api_WaitUntilVpcAvailable _ _ _) as [[[]|c] w2]; cbn.
    2: { split; [done|]. eexists.
         erewrite issued_app by (by rewrite <- ?app_assoc). reflexivity. }
    destruct (api_CreateTags _ _ _) as [[[]|c] w3]; cbn;
      (split; [done|]; eexists;
       erewrite issued_app by (by rewrite <- ?app_assoc); reflexivity). }
  destruct (Hcreate st eq_refl) as [Hvpc Hcall]. fold st' in Hvpc, Hcall.
  repeat split; try done.
  - intros e _. rewrite Hvpc. subst v. destruct (Network.VPC (network st)) as [i b].
    cbn in *. subst b. discriminate.
  - intros w1 e Hd. rewrite reconcileVPC_run, describeVPC_run. cbn zeta.
    fold v. rewrite Hd.
    set (st1 := mkState _ _ _).
    destruct (Hcreate st1 eq_refl) as [Hvpc1 _].
    destruct (createVPC EC2 clusterName st1) as [[vpc|e'] st2]; cbn in *; [discriminate|].
    intros _. exact Hvpc1.
Qed.

End VpcFacts.

(** ** Route tables *)

#[local] Arguments createRoute : simpl never.
#[local] Arguments createRouteTableWithRoutes : simpl never.
#[local] Arguments associateRouteTable : simpl never.
#[local] Arguments describeVpcRouteTables : simpl never.
#[local] Arguments describeVpcRouteTablesBySubnet : simpl never.
#[local] Arguments reconcileSubnetRouteTable : simpl never.
#[local] Arguments reconcileRouteTables : simpl never.
#[local] Arguments defaultRoutes : simpl never.

Lemma forRange_app {W X} (xs ys : list X) (body : X → M W unit) (st : State W) :
  forRange (xs ++ ys) body st =
    match forRange xs body st with
    | (Ok _, st') => forRange ys body st'
    | (Err e, st') => (Err e, st')
    end.
Proof.
  revert st. induction xs as [|x xs IH]; intros st; cbn; [reflexivity|].
  unfold bind. destruct (body x st) as [[[]|e] st1]; [apply IH | reflexivity].
Qed.

Section RouteTableFacts.

Context {W : Type}.
Variable EC2 : EC2API W.
Variable getNat : list Subnet.t → Subnet.t → result string.

Lemma createRoute_run out route (st : State W) :
  createRoute EC2 out route st =
    let i := createRouteInput out route in
    let '(o, w) := api_CreateRoute EC2 i (world st) in
    let st' := mkState (network st) w (calls st ++ [CreateRoute i o]) in
    match o with
    | Done _ => (Ok tt, st')
    | Failed c =>
        (Err (Wrapf (AwsError c) "failed to create route in route table %q: %s"
                [ArgString (ec2.RouteTable.RouteTableId out); ArgRoute route]), st')
    end.
Proof.
  unfold createRoute, createRouteInput. unfold_run. cbn.
  destruct (api_CreateRoute _ _ _) as [[[]|c] w]; reflexivity.
Qed.

Lemma createRouteTableWithRoutes_run vpc routes (st : State W) :
  createRouteTableWithRoutes EC2 vpc routes st =
    let i := ec2.CreateRouteTableInput.mk (Some (VPC.ID vpc)) in
    let '(o, w) := api_CreateRouteTable EC2 i (world st) in
    let st1 := mkState (network st) w (calls st ++ [CreateRouteTable i o]) in
    match o with
    | Failed c =>
        (Err (Wrapf (AwsError c) "failed to create route table in vpc %q"
                [ArgString (VPC.ID vpc)]), st1)
    | Done out =>
        match forRange routes (createRoute EC2 out) st1 with
        | (Ok _, st2) => (Ok (RouteTable.mk (ec2.RouteTable.RouteTableId out)), st2)
        | (Err e, st2) => (Err e, st2)
        end
    end.
Proof.
  unfold createRouteTableWithRoutes. unfold_run. cbn.
  destruct (api_CreateRouteTable _ _ _) as [[out|c] w]; cbn; [|reflexivity].
  destruct (forRange _ _ _) as [[[]|e] st2]; reflexivity.
Qed.

Lemma associateRouteTable_run rt subnetID (st : State W) :
  associateRouteTable EC2 rt subnetID st =
    let i := ec2.AssociateRouteTableInput.mk (Some (RouteTable.ID rt)) (Some subnetID) in
    let '(o, w) := api_AssociateRouteTable EC2 i (world st) in
    let st' := mkState (network st) w (calls st ++ [AssociateRouteTable i o]) in
    match o with
    | Done _ => (Ok tt, st')
    | Failed c =>
        (Err (Wrapf (AwsError c) "failed to associate route table %q to subnet %q"
                [ArgString (RouteTable.ID rt); ArgString subnetID]), st')
    end.
Proof.
  unfold associateRouteTable. unfold_run. cbn.
  destruct (api_AssociateRouteTable _ _ _) as [[[]|c] w]; reflexivity.
Qed.

Lemma describeVpcRouteTablesBySubnet_run vpcID (st : State W) :
  describeVpcRouteTablesBySubnet EC2 vpcID st =
    let i := ec2.DescribeRouteTablesInput.mk [ec2.Filter.mk (Some "vpc-id") [vpcID]] in
    let '(o, w) := api_DescribeRouteTables EC2 i (world st) in
    let st' := mkState (network st) w (calls st ++ [DescribeRouteTables i o]) in
    match o with
    | Done rts => (Ok (bySubnet rts), st')
    | Failed c =>
        (Err (Wrapf (AwsError c) "failed to describe route tables in vpc %q"
                [ArgString vpcID]), st')
    end.
Proof.
  unfold describeVpcRouteTablesBySubnet, describeVpcRouteTables. unfold_run. cbn.
  destruct (api_DescribeRouteTables _ _ _) as [[rts|c] w]; reflexivity.
Qed.

(** The body of the loop, case by case. *)
Lemma reconcileSubnetRouteTable_run m i (st : State W) :
  reconcileSubnetRouteTable EC2 getNat m i st =
    match Network.Subnets (network st) !! i with
    | None => (Ok tt, st)
    | Some sn =>
        match m !! Subnet.ID sn with
        | Some _ => (Ok tt, st)
        | None =>
            match defaultRoutes getNat (network st) sn with
            | Err e => (Err e, st)
            | Ok routes =>
                match createRouteTableWithRoutes EC2 (Network.VPC (network st)) routes st with
                | (Err e, st1) => (Err e, st1)
                | (Ok rt, st1) =>
                    match associateRouteTable EC2 rt (Subnet.ID sn) st1 with
                    | (Err e, st2) => (Err e, st2)
                    | (Ok _, st2) =>
                        (Ok tt,
                         mkState
                           (Network.withSubnets (network st2)
                              (<[i := Subnet.withRouteTableID sn (Some (RouteTable.ID rt))]>
                                 (Network.Subnets (network st2))))
                           (world st2) (calls st2))
                    end
                end
            end
        end
    end.
Proof.
  unfold reconcileSubnetRouteTable, setRouteTableID. unfold_run. cbn.
  destruct (Network.Subnets (network st) !! i) as [sn|]; [|reflexivity].
  destruct (m !! Subnet.ID sn); [reflexivity|].
  destruct (defaultRoutes _ _ _) as [routes|e]; [|reflexivity].
  destruct (createRouteTableWithRoutes _ _ _ _) as [[rt|e] st1]; [|reflexivity].
  destruct (associateRouteTable _ _ _ _) as [[[]|e] st2]; reflexivity.
Qed.

Lemma reconcileRouteTables_run (st : State W) :
  reconcileRouteTables EC2 getNat st =
    match describeVpcRouteTablesBySubnet EC2 (VPC.ID (Network.VPC (network st))) st with
    | (Ok m, st1) =>
        forRange (seq 0 (length (Network.Subnets (network st))))
          (reconcileSubnetRouteTable EC2 getNat m) st1
    | (Err e, st1) => (Err e, st1)
    end.
Proof.
  unfold reconcileRouteTables. unfold_run. cbn.
  destruct (describeVpcRouteTablesBySubnet _ _ _) as [[m|e] st1]; reflexivity.
Qed.

(** The routes are created in order, and the first refusal ends the loop. *)
Lemma forRange_createRoute out routes (st : State W) :
  let r := forRange routes (createRoute EC2 out) st in
  network r.2 = network st
  ∧ match r.1 with
    | Ok _ =>
        calls r.2 = calls st ++ (createRouteDone out <$> routes)
        ∧ acceptRoutes EC2 out routes (world st) = Some (world r.2)
    | Err e =>
        ∃ pre route post c w,
          routes = pre ++ route :: post
          ∧ acceptRoutes EC2 out pre (world st) = Some w
          ∧ api_CreateRoute EC2 (createRouteInput out route) w = (Failed c, world r.2)
          ∧ calls r.2 = calls st ++ (createRouteDone out <$> pre)
                          ++ [CreateRoute (createRouteInput out route) (Failed c)]
          ∧ e = Wrapf (AwsError c) "failed to create route in route table %q: %s"
                  [ArgString (ec2.RouteTable.RouteTableId out); ArgRoute route]
    end.
Proof.
  revert st. induction routes as [|route routes IH]; intros st; cbn.
  { split; [done|]. split; [by rewrite app_nil_r | done]. }
  unfold bind. rewrite createRoute_run. cbn zeta.
  destruct (api_CreateRoute _ _ _) as [[[]|c] w] eqn:Hc; cbn.
  - specialize (IH (mkState (network st) w
                      (calls st ++ [CreateRoute (createRouteInput out route) (Done tt)]))).
    cbn zeta in IH. destruct IH as [Hn IH]. split; [exact Hn|].
    destruct (forRange routes _ _) as [[[]|e] st2]; cbn in *.
    + destruct IH as [Hcs Hw]. split; [|exact Hw].
      rewrite Hcs, <- app_assoc. reflexivity.
    + destruct IH as (pre & r & post & c & w' & -> & Hacc & Hfail & Hcs & ->).
      exists (route :: pre), r, post, c, w'. cbn. rewrite Hc.
      repeat split; try done. rewrite Hcs, <- !app_assoc. reflexivity.
  - split; [done|]. exists [], route, routes, c, (world st). cbn.
    repeat split; done.
Qed.

(** The provider accepts a prefix of the routes: the loop goes on with the
    rest, in the world that the prefix left. *)
Lemma forRange_createRoute_accepted out pre rest n w cs w1 :
  acceptRoutes EC2 out pre w = Some w1 →
  forRange (pre ++ rest) (createRoute EC2 out) (mkState n w cs)
  = forRange rest (createRoute EC2 out) (mkState n w1 (cs ++ (createRouteDone out <$> pre))).
Proof.
  revert w cs. induction pre as [|route pre IH]; intros w cs Hacc; cbn in *.
  { injection Hacc as ->. by rewrite app_nil_r. }
  unfold bind at 1. rewrite createRoute_run. cbn.
  destruct (api_CreateRoute _ _ _) as [[[]|c] w'] eqn:Hc; [|discriminate].
  rewrite (IH _ _ Hacc), <- app_assoc. reflexivity.
Qed.

Lemma createRouteTableWithRoutes_network vpc routes (st : State W) :
  network (createRouteTableWithRoutes EC2 vpc routes st).2 = network st.
Proof.
  rewrite createRouteTableWithRoutes_run. cbn zeta.
  destruct (api_CreateRouteTable _ _ _) as [[out|c] w]; [|done].
  pose proof (forRange_createRoute out routes
                (mkState (network st) w
                   (calls st ++ [CreateRouteTable
                                   (ec2.CreateRouteTableInput.mk (Some (VPC.ID vpc)))
                                   (Done out)]))) as [Hn _].
  destruct (forRange _ _ _) as [[[]|e] st2]; exact Hn.
Qed.

Lemma associateRouteTable_network rt subnetID (st : State W) :
  network (associateRouteTable EC2 rt subnetID st).2 = network st.
Proof.
  rewrite associateRouteTable_run. cbn zeta.
  by destruct (api_AssociateRouteTable _ _ _) as [[[]|c] w].
Qed.

(** A successful [createRouteTableWithRoutes]: the table, then its routes. *)
Lemma createRouteTableWithRoutes_ok vpc routes (st st' : State W) rt :
  createRouteTableWithRoutes EC2 vpc routes st = (Ok rt, st') →
  ∃ out w,
    api_CreateRouteTable EC2 (ec2.CreateRouteTableInput.mk (Some (VPC.ID vpc))) (world st)
    = (Done out, w)
    ∧ acceptRoutes EC2 out routes w = Some (world st')
    ∧ rt = RouteTable.mk (ec2.RouteTable.RouteTableId out)
    ∧ network st' = network st
    ∧ calls st' = calls st
                  ++ CreateRouteTable (ec2.CreateRouteTableInput.mk (Some (VPC.ID vpc)))
                       (Done out)
                  :: (createRouteDone out <$> routes).
Proof.
  rewrite createRouteTableWithRoutes_run. cbn zeta.
  destruct (api_CreateRouteTable _ _ _) as [[out|c] w]; [|discriminate].
  set (st1 := mkState _ _ _).
  pose proof (forRange_createRoute out routes st1) as [Hn H].
  destruct (forRange _ _ _) as [[[]|e] st2]; [|discriminate].
  intros [= <- <-]. cbn in *. destruct H as [Hcs Hw].
  exists out, w. repeat split; try done.
  rewrite Hcs. subst st1. cbn. by rewrite <- app_assoc.
Qed.

Lemma associateRouteTable_ok rt subnetID (st st' : State W) :
  associateRouteTable EC2 rt subnetID st = (Ok tt, st') →
  api_AssociateRouteTable EC2
    (ec2.AssociateRouteTableInput.mk (Some (RouteTable.ID rt)) (Some subnetID)) (world st)
  = (Done tt, world st')
  ∧ network st' = network st
  ∧ calls st' = calls st
                ++ [AssociateRouteTable
                      (ec2.AssociateRouteTableInput.mk
                         (Some (RouteTable.ID rt)) (Some subnetID))
                      (Done tt)].
Proof.
  rewrite associateRouteTable_run. cbn zeta.
  destruct (api_AssociateRouteTable _ _ _) as [[[]|c] w]; [|discriminate].
  by intros [= <-].
Qed.

(** What one turn of the loop leaves alone: the VPC, the internet gateway,
    the number of subnets, every other subnet, and of the subnet at its
    index everything but the table. *)
Lemma reconcileSubnetRouteTable_frame m i (st : State W) :
  let st' := (reconcileSubnetRouteTable EC2 getNat m i st).2 in
  Network.VPC (network st') = Network.VPC (network st)
  ∧ Network.InternetGatewayID (network st') = Network.InternetGatewayID (network st)
  ∧ length (Network.Subnets (network st')) = length (Network.Subnets (network st))
  ∧ (∀ j, j ≠ i → Network.Subnets (network st') !! j = Network.Subnets (network st) !! j)
  ∧ (Subnet.ID <$> Network.Subnets (network st')) = (Subnet.ID <$> Network.Subnets (network st)).
Proof.
  rewrite reconcileSubnetRouteTable_run.
  destruct (Network.Subnets (network st) !! i) as [sn|] eqn:Hsn; [|done].
  destruct (m !! Subnet.ID sn); [done|].
  destruct (defaultRoutes _ _ _) as [routes|e]; [|done].
  pose proof (createRouteTableWithRoutes_network (Network.VPC (network st)) routes st) as H1.
  destruct (createRouteTableWithRoutes _ _ _ _) as [[rt|e] st1]; cbn in *;
    [|by rewrite H1].
  pose proof (associateRouteTable_network rt (Subnet.ID sn) st1) as H2.
  destruct (associateRouteTable _ _ _ _) as [[[]|e] st2]; cbn in *;
    rewrite H2, H1; [|done].
  repeat split.
  - apply length_insert.
  - intros j Hj. by apply list_lookup_insert_ne.
  - rewrite list_fmap_insert. cbn. apply list_insert_id.
    by rewrite list_lookup_fmap, Hsn.
Qed.

Lemma forRange_frame m (ixs : list nat) (st : State W) :
  let st' := (forRange ixs (reconcileSubnetRouteTable EC2 getNat m) st).2 in
  Network.VPC (network st') = Network.VPC (network st)
  ∧ Network.InternetGatewayID (network st') = Network.InternetGatewayID (network st)
  ∧ length (Network.Subnets (network st')) = length (Network.Subnets (network st))
  ∧ (∀ j, j ∉ ixs → Network.Subnets (network st') !! j = Network.Subnets (network st) !! j)
  ∧ (Subnet.ID <$> Network.Subnets (network st')) = (Subnet.ID <$> Network.Subnets (network st)).
Proof.
  revert st. induction ixs as [|i ixs IH]; intros st; cbn; [done|].
  unfold bind.
  pose proof (reconcileSubnetRouteTable_frame m i st) as (F1 & F2 & F3 & F4 & F5).
  destruct (reconcileSubnetRouteTable _ _ _ _ _) as [[[]|e] st1]; cbn in *.
  - destruct (IH st1) as (G1 & G2 & G3 & G4 & G5).
    rewrite G1, G2, G3, G5. repeat split; try done.
    intros j Hj. apply not_elem_of_cons in Hj as [Hji Hj]. by rewrite G4, F4.
  - repeat split; try done. intros j Hj. apply not_elem_of_cons in Hj as [Hji Hj].
    by apply F4.
Qed.

(** *** The map from subnets to tables *)

Lemma addAssociations_lookup rt (assocs : list ec2.RouteTableAssociation.t)
    (res : gmap string ec2.RouteTable.t) subnetID :
  foldl (addAssociation rt) res assocs !! subnetID =
    if decide (Some subnetID ∈ (ec2.RouteTableAssociation.SubnetId <$> assocs))
    then Some rt
    else res !! subnetID.
Proof.
  revert res. induction assocs as [|[sid] assocs IH]; intros res; cbn.
  { case_decide as H; [by apply elem_of_nil in H | done]. }
  rewrite IH. unfold addAssociation. cbn.
  destruct (decide (Some subnetID ∈ _)) as [Hin|Hnin].
  { rewrite decide_True; [done|]. apply elem_of_cons. by right. }
  destruct sid as [s|]; [destruct (decide (s = subnetID)) as [->|Hne]|].
  - rewrite decide_True, lookup_insert_eq; [done|]. apply elem_of_cons. by left.
  - rewrite decide_False, lookup_insert_ne; [done | done |].
    intros [H|H]%elem_of_cons; [congruence | done].
  - rewrite decide_False; [done|]. by intros [H|H]%elem_of_cons.
Qed.

Lemma addRouteTable_lookup (res : gmap string ec2.RouteTable.t) rt subnetID :
  addRouteTable res rt !! subnetID =
    if decide (associates subnetID rt) then Some rt else res !! subnetID.
Proof. apply addAssociations_lookup. Qed.

Lemma bySubnet_snoc rts rt : bySubnet (rts ++ [rt]) = addRouteTable (bySubnet rts) rt.
Proof. unfold bySubnet. by rewrite foldl_app. Qed.

Lemma bySubnet_lookup rts subnetID :
  bySubnet rts !! subnetID = last (filter (associates subnetID) rts).
Proof.
  induction rts as [|rt rts IH] using rev_ind; [done|].
  rewrite bySubnet_snoc, addRouteTable_lookup, filter_app, filter_cons, filter_nil.
  case_decide.
  - by rewrite last_snoc.
  - by rewrite app_nil_r.
Qed.

(** C10.  [describeVpcRouteTablesBySubnet] returns, whenever the describe
    call succeeds, the map built from the tables in the order of the reply:
    an association without a subnet adds nothing, and a subnet is mapped to
    the last table of the reply that has an association with it, so a subnet
    that two tables claim is mapped to the later one and the call succeeds
    all the same. *)
Theorem describeVpcRouteTablesBySubnet_last_table_wins vpcID (st : State W) :
  (describeVpcRouteTablesBySubnet EC2 vpcID st).1
  = match (api_DescribeRouteTables EC2
             (ec2.DescribeRouteTablesInput.mk [ec2.Filter.mk (Some "vpc-id") [vpcID]])
             (world st)).1 with
    | Done rts => Ok (bySubnet rts)
    | Failed c =>
        Err (Wrapf (AwsError c) "failed to describe route tables in vpc %q"
               [ArgString vpcID])
    end
  ∧ (∀ rts subnetID,
       bySubnet rts !! subnetID = last (filter (associates subnetID) rts))
  ∧ (∀ rt res, addAssociation rt res (ec2.RouteTableAssociation.mk None) = res)
  ∧ (∀ rts rt1 rt2 subnetID,
       associates subnetID rt1 → associates subnetID rt2 →
       bySubnet (rts ++ [rt1; rt2]) !! subnetID = Some rt2).
Proof.
  repeat split.
  - rewrite describeVpcRouteTablesBySubnet_run. cbn zeta.
    by destruct (api_DescribeRouteTables _ _ _) as [[rts|c] w].
  - apply bySubnet_lookup.
  - intros rts rt1 rt2 subnetID H1 H2.
    rewrite bySubnet_lookup, filter_app, !filter_cons, filter_nil.
    rewrite !decide_True by done.
    change (filter (associates subnetID) rts ++ [rt1; rt2])
      with (filter (associates subnetID) rts ++ [rt1] ++ [rt2]).
    rewrite app_assoc. apply last_snoc.
Qed.

(** C4.  The routes of a subnet without a table are one route to
    0.0.0.0/0 with one target set: the network's internet gateway, and no
    NAT gateway, for a public subnet; the NAT gateway that the lookup over
    the subnet list resolves for the subnet, and no internet gateway, for a
    private one.  These are the routes of the table that the pass creates
    for the subnet: one create-route call per route, with the route's
    fields. *)
Theorem defaultRoutes_one_default_route (in_ : Network.t) (sn : Subnet.t) :
  (∀ internetGatewayID,
     Subnet.IsPublic sn = true →
     Network.InternetGatewayID in_ = Some internetGatewayID →
     defaultRoutes getNat in_ sn = Ok (getDefaultPublicRoutes internetGatewayID))
  ∧ (∀ natGatewayId,
       Subnet.IsPublic sn = false →
       getNat (Network.Subnets in_) sn = Ok natGatewayId →
       defaultRoutes getNat in_ sn = Ok (getDefaultPrivateRoutes natGatewayId))
  ∧ (∀ routes,
       defaultRoutes getNat in_ sn = Ok routes →
       ∃ route,
         routes = [route]
         ∧ ec2.Route.DestinationCidrBlock route = Some "0.0.0.0/0"
         ∧ length (targets route) = 1
         ∧ (Subnet.IsPublic sn = true →
            ∃ internetGatewayID,
              Network.InternetGatewayID in_ = Some internetGatewayID
              ∧ ec2.Route.GatewayId route = Some internetGatewayID
              ∧ ec2.Route.NatGatewayId route = None)
         ∧ (Subnet.IsPublic sn = false →
            ∃ natGatewayId,
              getNat (Network.Subnets in_) sn = Ok natGatewayId
              ∧ ec2.Route.NatGatewayId route = Some natGatewayId
              ∧ ec2.Route.GatewayId route = None))
  ∧ (∀ m i (st st' : State W),
       network st = in_ →
       Network.Subnets in_ !! i = Some sn →
       m !! Subnet.ID sn = None →
       reconcileSubnetRouteTable EC2 getNat m i st = (Ok tt, st') →
       ∃ routes out,
         defaultRoutes getNat in_ sn = Ok routes
         ∧ calls st' = calls st
                       ++ creationCalls (VPC.ID (Network.VPC in_)) out routes (Subnet.ID sn)).
Proof.
  split; [|split; [|split]].
  - intros igw Hpub Higw. unfold defaultRoutes. by rewrite Hpub, Higw.
  - intros nat Hpriv Hnat. unfold defaultRoutes. by rewrite Hpriv, Hnat.
  - intros routes. unfold defaultRoutes.
    destruct (Subnet.IsPublic sn).
    + destruct (Network.InternetGatewayID in_) as [igw|]; [|discriminate].
      intros [= <-]. eexists. repeat split; try done. intros _. by exists igw.
    + destruct (getNat _ _) as [nat|e]; [|discriminate].
      intros [= <-]. eexists. repeat split; try done. intros _. by exists nat.
  - intros m i st st' <- Hsn Hm. rewrite reconcileSubnetRouteTable_run, Hsn, Hm.
    destruct (defaultRoutes _ _ _) as [routes|e]; [|discriminate].
    destruct (createRouteTableWithRoutes _ _ _ _) as [[rt|e] st1] eqn:Hc; [|discriminate].
    apply createRouteTableWithRoutes_ok in Hc as (out & w & _ & _ & -> & _ & Hc1).
    destruct (associateRouteTable _ _ _ _) as [[[]|e] st2] eqn:Ha; [|discriminate].
    apply associateRouteTable_ok in Ha as (_ & _ & Hc2). cbn in *.
    intros [= <-]. exists routes, out. split; [done|]. cbn.
    rewrite Hc2, Hc1. unfold creationCalls. by rewrite <- !app_assoc.
Qed.

(** *** The loop over the subnets *)

(** The loop up to an index, the turn of that index, and the rest. *)
Lemma forRange_seq_split (body : nat → M W unit) n i (st : State W) :
  i < n →
  forRange (seq 0 n) body st =
    match forRange (seq 0 i) body st with
    | (Ok _, st1) =>
        match body i st1 with
        | (Ok _, st2) => forRange (seq (S i) (n - S i)) body st2
        | (Err e, st2) => (Err e, st2)
        end
    | (Err e, st1) => (Err e, st1)
    end.
Proof.
  intros Hi.
  replace n with (i + S (n - S i)) at 1 by lia.
  rewrite seq_app, forRange_app. cbn.
  destruct (forRange (seq 0 i) body st) as [[[]|e] st1]; [|done].
  unfold bind. by destruct (body i st1) as [[[]|e] st2].
Qed.

(** The subnet at an index is as the caller gave it when the loop reaches
    that index. *)
Lemma forRange_prefix_frame m i (st : State W) :
  let st' := (forRange (seq 0 i) (reconcileSubnetRouteTable EC2 getNat m) st).2 in
  Network.VPC (network st') = Network.VPC (network st)
  ∧ Network.InternetGatewayID (network st') = Network.InternetGatewayID (network st)
  ∧ Network.Subnets (network st') !! i = Network.Subnets (network st) !! i.
Proof.
  destruct (forRange_frame m (seq 0 i) st) as (F1 & F2 & _ & F4 & _).
  repeat split; try done. apply F4. rewrite elem_of_seq. lia.
Qed.

(** C7.  A network has a public subnet that no table of the describe reply
    is associated with, and no internet gateway: [reconcileRouteTables]
    returns an error, and it stops where the loop reaches that subnet, so
    the state it leaves, calls included, is the state that the subnets
    before it left: no call is issued for that subnet.  The error is the one
    of an earlier subnet when one failed, and otherwise the error that says
    that the internet gateway is nil. *)
Theorem reconcileRouteTables_public_subnet_needs_gateway (st st1 : State W) m i sn :
  describeVpcRouteTablesBySubnet EC2 (VPC.ID (Network.VPC (network st))) st = (Ok m, st1) →
  Network.Subnets (network st) !! i = Some sn →
  Subnet.IsPublic sn = true →
  m !! Subnet.ID sn = None →
  Network.InternetGatewayID (network st) = None →
  let before := forRange (seq 0 i) (reconcileSubnetRouteTable EC2 getNat m) st1 in
  (reconcileRouteTables EC2 getNat st).2 = before.2
  ∧ (reconcileRouteTables EC2 getNat st).1
    = match before.1 with
      | Ok _ =>
          Err (Errorf "failed to create routing tables: internet gateway for %q is nil"
                 [ArgString (VPC.ID (Network.VPC (network st)))])
      | Err e => Err e
      end.
Proof.
  intros Hd Hsn Hpub Hm Higw before.
  assert (Hnet : network st1 = network st).
  { rewrite describeVpcRouteTablesBySubnet_run in Hd. cbn zeta in Hd.
    destruct (api_DescribeRouteTables _ _ _) as [[rts|c] w]; [|discriminate].
    by injection Hd as <- <-. }
  rewrite reconcileRouteTables_run, Hd.
  rewrite (forRange_seq_split _ _ i) by (by eapply lookup_lt_Some).
  destruct (forRange_prefix_frame m i st1) as (F1 & F2 & F3).
  fold before in F1, F2, F3 |- *.
  destruct before as [[[]|e] st2]; cbn in *; [|done].
  rewrite reconcileSubnetRouteTable_run, F3, Hnet, Hsn, Hm.
  unfold defaultRoutes. by rewrite Hpub, F2, F1, Hnet, Higw.
Qed.

(** The turn of a subnet fails: the pass returns that error at once, in the
    state that the failure left. *)
Lemma reconcileRouteTables_returns_first_error (st st1 st2 : State W) m i e :
  describeVpcRouteTablesBySubnet EC2 (VPC.ID (Network.VPC (network st))) st = (Ok m, st1) →
  i < length (Network.Subnets (network st)) →
  (forRange (seq 0 i) (reconcileSubnetRouteTable EC2 getNat m) st1).1 = Ok tt →
  reconcileSubnetRouteTable EC2 getNat m i
    (forRange (seq 0 i) (reconcileSubnetRouteTable EC2 getNat m) st1).2 = (Err e, st2) →
  reconcileRouteTables EC2 getNat st = (Err e, st2).
Proof.
  intros Hd Hi Hbefore Hturn.
  rewrite reconcileRouteTables_run, Hd, (forRange_seq_split _ _ i) by done.
  destruct (forRange (seq 0 i) _ st1) as [[[]|e'] st']; cbn in *; [|discriminate].
  by rewrite Hturn.
Qed.

(** C2.  The provider creates the table, accepts the routes [pre] and
    refuses the next route: [createRouteTableWithRoutes] returns the wrapped
    failure having issued the create-table call, one create-route call per
    route of [pre] and the refused call, and nothing else: the routes after
    the refused one are not tried, nothing is deleted, and the provider is
    left as the refused call left it.  ([pre = [r1]] and no route after the
    refused [r2] is the case of the routes [[r1, r2]].)  When this happens
    in the turn of a subnet, [reconcileRouteTables] returns that error in
    that very state: no association call follows for the table, no later
    subnet is processed, and the subnet's table id is not written. *)
Theorem createRouteTableWithRoutes_fails_fast :
  (∀ vpc pre route post (st : State W) out w0 w1 c w2,
     api_CreateRouteTable EC2 (ec2.CreateRouteTableInput.mk (Some (VPC.ID vpc))) (world st)
     = (Done out, w0) →
     acceptRoutes EC2 out pre w0 = Some w1 →
     api_CreateRoute EC2 (createRouteInput out route) w1 = (Failed c, w2) →
     createRouteTableWithRoutes EC2 vpc (pre ++ route :: post) st
     = (Err (Wrapf (AwsError c) "failed to create route in route table %q: %s"
               [ArgString (ec2.RouteTable.RouteTableId out); ArgRoute route]),
        mkState (network st) w2
          (calls st
             ++ CreateRouteTable (ec2.CreateRouteTableInput.mk (Some (VPC.ID vpc))) (Done out)
             :: (createRouteDone out <$> pre)
             ++ [CreateRoute (createRouteInput out route) (Failed c)])))
  ∧ (∀ (st st1 : State W) m i sn pre route post out w0 w1 c w2,
       describeVpcRouteTablesBySubnet EC2 (VPC.ID (Network.VPC (network st))) st
       = (Ok m, st1) →
       let before := forRange (seq 0 i) (reconcileSubnetRouteTable EC2 getNat m) st1 in
       before.1 = Ok tt →
       Network.Subnets (network st) !! i = Some sn →
       m !! Subnet.ID sn = None →
       defaultRoutes getNat (network before.2) sn = Ok (pre ++ route :: post) →
       api_CreateRouteTable EC2
         (ec2.CreateRouteTableInput.mk (Some (VPC.ID (Network.VPC (network st)))))
         (world before.2) = (Done out, w0) →
       acceptRoutes EC2 out pre w0 = Some w1 →
       api_CreateRoute EC2 (createRouteInput out route) w1 = (Failed c, w2) →
       reconcileRouteTables EC2 getNat st
       = (Err (Wrapf (AwsError c) "failed to create route in route table %q: %s"
                 [ArgString (ec2.RouteTable.RouteTableId out); ArgRoute route]),
          mkState (network before.2) w2
            (calls before.2
               ++ CreateRouteTable
                    (ec2.CreateRouteTableInput.mk
                       (Some (VPC.ID (Network.VPC (network st))))) (Done out)
               :: (createRouteDone out <$> pre)
               ++ [CreateRoute (createRouteInput out route) (Failed c)]))).
Proof.
  assert (A : ∀ vpc pre route post (st : State W) out w0 w1 c w2,
     api_CreateRouteTable EC2 (ec2.CreateRouteTableInput.mk (Some (VPC.ID vpc))) (world st)
     = (Done out, w0) →
     acceptRoutes EC2 out pre w0 = Some w1 →
     api_CreateRoute EC2 (createRouteInput out route) w1 = (Failed c, w2) →
     createRouteTableWithRoutes EC2 vpc (pre ++ route :: post) st
     = (Err (Wrapf (AwsError c) "failed to create route in route table %q: %s"
               [ArgString (ec2.RouteTable.RouteTableId out); ArgRoute route]),
        mkState (network st) w2
          (calls st
             ++ CreateRouteTable (ec2.CreateRouteTableInput.mk (Some (VPC.ID vpc))) (Done out)
             :: (createRouteDone out <$> pre)
             ++ [CreateRoute (createRouteInput out route) (Failed c)]))).
  { intros vpc pre route post st out w0 w1 c w2 Ht Hacc Hfail.
    rewrite createRouteTableWithRoutes_run. cbn zeta. rewrite Ht.
    rewrite (forRange_createRoute_accepted _ _ _ _ _ _ _ Hacc). cbn.
    unfold bind. rewrite createRoute_run. cbn. rewrite Hfail.
    by rewrite <- !app_assoc. }
  split; [exact A|].
  intros st st1 m i sn pre route post out w0 w1 c w2 Hd before Hok Hsn Hm Hroutes Ht Hacc Hfail.
  assert (Hnet : network st1 = network st).
  { rewrite describeVpcRouteTablesBySubnet_run in Hd. cbn zeta in Hd.
    destruct (api_DescribeRouteTables _ _ _) as [[rts|c'] w]; [|discriminate].
    by injection Hd as <- <-. }
  destruct (forRange_prefix_frame m i st1) as (F1 & F2 & F3). fold before in F1, F2, F3.
  eapply reconcileRouteTables_returns_first_error; try done.
  { by eapply lookup_lt_Some. }
  fold before. rewrite reconcileSubnetRouteTable_run, F3, Hnet, Hsn, Hm, Hroutes.
  rewrite F1, Hnet in *.
  by rewrite (A _ _ _ _ _ _ _ _ _ _ Ht Hacc Hfail).
Qed.

Lemma pass_lookup m vpcID sns sns' cs :
  pass m vpcID sns sns' cs →
  ∀ i sn, sns !! i = Some sn →
    match m !! Subnet.ID sn with
    | Some _ => sns' !! i = Some sn
    | None => ∃ id, sns' !! i = Some (Subnet.withRouteTableID sn (Some id))
    end.
Proof.
  induction 1 as [|sn sns sns' cs [rt Hrt] _ IH|sn sns sns' cs out routes Hm _ IH];
    intros i sn0 Hi.
  - by rewrite lookup_nil in Hi.
  - destruct i as [|i]; cbn in *; [|by apply IH].
    injection Hi as <-. by rewrite Hrt.
  - destruct i as [|i]; cbn in *; [|by apply IH].
    injection Hi as <-. rewrite Hm. eauto.
Qed.

Lemma filter_createRouteDone (f : Call → bool) out routes :
  (∀ i o, f (CreateRoute i o) = false) →
  List.filter f (createRouteDone out <$> routes) = [].
Proof.
  intros Hf. induction routes as [|r routes IH]; [done|].
  cbn. unfold createRouteDone at 1. by rewrite Hf.
Qed.

Lemma pass_counts m vpcID sns sns' cs :
  pass m vpcID sns sns' cs →
  length (List.filter isTableCreation cs)
  = length (filter (λ sn, m !! Subnet.ID sn = None) sns)
  ∧ length (List.filter isAssociation cs)
    = length (filter (λ sn, m !! Subnet.ID sn = None) sns).
Proof.
  induction 1 as [|sn sns sns' cs [rt Hrt] _ IH|sn sns sns' cs out routes Hm _ IH].
  - done.
  - rewrite filter_cons, decide_False by (by rewrite Hrt). exact IH.
  - rewrite filter_cons, decide_True by done.
    rewrite !List.filter_app, !length_app.
    destruct IH as [-> ->].
    unfold creationCalls.
    cbn [List.filter isTableCreation isAssociation].
    rewrite !List.filter_app, !filter_createRouteDone by done.
    done.
Qed.

(** The loop from an index on, over the subnets that are left. *)
Lemma forRange_pass m (todo done_ : list Subnet.t) (st st' : State W) :
  Network.Subnets (network st) = done_ ++ todo →
  forRange (seq (length done_) (length todo)) (reconcileSubnetRouteTable EC2 getNat m) st
  = (Ok tt, st') →
  ∃ todo' cs,
    Network.Subnets (network st') = done_ ++ todo'
    ∧ calls st' = calls st ++ cs
    ∧ pass m (VPC.ID (Network.VPC (network st))) todo todo' cs.
Proof.
  revert done_ st. induction todo as [|sn todo IH]; intros done_ st Hsns; cbn.
  { intros [= <-]. exists [], []. rewrite !app_nil_r. rewrite app_nil_r in Hsns.
    split; [done|]. split; [done|]. constructor. }
  unfold bind. rewrite reconcileSubnetRouteTable_run.
  assert (Hsn : Network.Subnets (network st) !! length done_ = Some sn).
  { rewrite Hsns. by apply list_lookup_middle. }
  rewrite Hsn.
  destruct (m !! Subnet.ID sn) as [rt|] eqn:Hm.
  - intros Hrest.
    destruct (IH (done_ ++ [sn]) st) as (todo' & cs & H1 & H2 & H3).
    { by rewrite <- app_assoc. }
    { by rewrite length_app, Nat.add_1_r. }
    exists (sn :: todo'), cs. rewrite <- app_assoc in H1.
    repeat split; try done. by constructor.
  - destruct (defaultRoutes _ _ _) as [routes|e]; [|discriminate].
    destruct (createRouteTableWithRoutes _ _ _ _) as [[rt|e] st1] eqn:Hc; [|discriminate].
    apply createRouteTableWithRoutes_ok in Hc as (out & w & _ & _ & -> & Hn1 & Hc1).
    destruct (associateRouteTable _ _ _ _) as [[[]|e] st2] eqn:Ha; [|discriminate].
    apply associateRouteTable_ok in Ha as (_ & Hn2 & Hc2). cbn in *.
    set (sn' := Subnet.withRouteTableID sn (Some (ec2.RouteTable.RouteTableId out))).
    set (st3 := mkState _ _ _).
    intros Hrest.
    destruct (IH (done_ ++ [sn']) st3) as (todo' & cs & H1 & H2 & H3).
    { subst st3. cbn. rewrite Hn2, Hn1, Hsns, <- app_assoc. cbn.
      rewrite insert_app_r_alt by done. by rewrite Nat.sub_diag. }
    { by rewrite length_app, Nat.add_1_r. }
    exists (sn' :: todo'),
      (creationCalls (VPC.ID (Network.VPC (network st))) out routes (Subnet.ID sn) ++ cs).
    rewrite <- app_assoc in H1.
    repeat split; try done.
    + rewrite H2. subst st3. cbn. rewrite Hc2, Hc1. unfold creationCalls.
      by rewrite <- !app_assoc.
    + assert (Hv : Network.VPC (network st3) = Network.VPC (network st)).
      { subst st3. cbn. by rewrite Hn2, Hn1. }
      rewrite Hv in H3. by constructor.
Qed.

(** C1, as the code has it.  When [reconcileRouteTables] returns without
    error, the describe call succeeded and, with the map built from its
    reply: every subnet that the map does not know ends the pass with a table
    id, the id of the table created for it; the calls after the describe call
    are, for each such subnet in turn, one create-table call, the
    create-route calls and one association call of that table with that
    subnet, so that there are as many tables created as associations, one per
    such subnet; a subnet that the map knows is left as the caller gave it,
    table id included. *)
Theorem reconcileRouteTables_success (st st' : State W) :
  reconcileRouteTables EC2 getNat st = (Ok tt, st') →
  ∃ rts cs,
    let m := bySubnet rts in
    let vpcID := VPC.ID (Network.VPC (network st)) in
    calls st' = calls st
                ++ DescribeRouteTables
                     (ec2.DescribeRouteTablesInput.mk [ec2.Filter.mk (Some "vpc-id") [vpcID]])
                     (Done rts)
                :: cs
    ∧ pass m vpcID (Network.Subnets (network st)) (Network.Subnets (network st')) cs
    ∧ (∀ i sn, Network.Subnets (network st) !! i = Some sn →
         m !! Subnet.ID sn = None →
         ∃ id, Network.Subnets (network st') !! i
               = Some (Subnet.withRouteTableID sn (Some id)))
    ∧ (∀ i sn, Network.Subnets (network st) !! i = Some sn →
         is_Some (m !! Subnet.ID sn) →
         Network.Subnets (network st') !! i = Some sn)
    ∧ length (List.filter isTableCreation cs)
      = length (filter (λ sn, m !! Subnet.ID sn = None) (Network.Subnets (network st)))
    ∧ length (List.filter isAssociation cs)
      = length (filter (λ sn, m !! Subnet.ID sn = None) (Network.Subnets (network st))).
Proof.
  rewrite reconcileRouteTables_run, describeVpcRouteTablesBySubnet_run. cbn zeta.
  destruct (api_DescribeRouteTables _ _ _) as [[rts|c] w]; [|discriminate].
  set (st1 := mkState _ _ _). intros Hloop.
  destruct (forRange_pass (bySubnet rts) (Network.Subnets (network st)) [] st1 st')
    as (todo' & cs & H1 & H2 & H3); [done|done|].
  cbn in H1, H2, H3. rewrite <- H1 in H3.
  exists rts, cs. cbn zeta.
  pose proof (pass_lookup _ _ _ _ _ H3) as Hl.
  pose proof (pass_counts _ _ _ _ _ H3) as [Hc1 Hc2].
  repeat split; try done.
  - by rewrite H2, <- app_assoc.
  - intros i sn Hi Hm. specialize (Hl i sn Hi). by rewrite Hm in Hl.
  - intros i sn Hi [rt Hm]. specialize (Hl i sn Hi). by rewrite Hm in Hl.
Qed.



End RouteTableFacts.

(** *** How the other calls report a failure of the provider *)

Section Wrapping.

Context {W : Type}.
Variable EC2 : EC2API W.

(** The sibling paths of the describe call of [describeVPC]: an error of
    [createVPC], [deleteVPC], [describeVpcRouteTablesBySubnet],
    [createRouteTableWithRoutes] or [associateRouteTable] is the provider's
    error inside one wrapper. *)
Lemma sibling_calls_wrap_provider_failures (st : State W) e :
  let wrapped := ∃ c format args, e = Wrapf (AwsError c) format args in
  (∀ clusterName, (createVPC EC2 clusterName st).1 = Err e → wrapped)
  ∧ (∀ v, (deleteVPC EC2 v st).1 = Err e → wrapped)
  ∧ (∀ vpcID, (describeVpcRouteTablesBySubnet EC2 vpcID st).1 = Err e → wrapped)
  ∧ (∀ vpc routes, (createRouteTableWithRoutes EC2 vpc routes st).1 = Err e → wrapped)
  ∧ (∀ rt subnetID, (associateRouteTable EC2 rt subnetID st).1 = Err e → wrapped).
Proof.
  intros wrapped. subst wrapped. split; [|split; [|split; [|split]]].
  - intros clusterName. rewrite createVPC_run. cbn zeta.
    destruct (api_CreateVpc _ _ _) as [[out|c] w1]; cbn; [|intros [= <-]; eauto].
    destruct (api_WaitUntilVpcAvailable _ _ _) as [[[]|c] w2]; cbn; [|intros [= <-]; eauto].
    destruct (api_CreateTags _ _ _) as [[[]|c] w3]; cbn; [done | intros [= <-]; eauto].
  - intros v. unfold deleteVPC. unfold_run.
    destruct (api_DeleteVpc _ _ _) as [[[]|c] w1]; cbn; [done | intros [= <-]; eauto].
  - intros vpcID. rewrite describeVpcRouteTablesBySubnet_run. cbn zeta.
    destruct (api_DescribeRouteTables _ _ _) as [[rts|c] w1]; cbn;
      [done | intros [= <-]; eauto].
  - intros vpc routes. rewrite createRouteTableWithRoutes_run. cbn zeta.
    destruct (api_CreateRouteTable _ _ _) as [[out|c] w1]; cbn; [|intros [= <-]; eauto].
    set (st1 := mkState _ _ _).
    pose proof (forRange_createRoute EC2 out routes st1) as [_ H]. cbn zeta in H.
    destruct (forRange _ _ _) as [[[]|e'] st2]; cbn in *; [done|].
    destruct H as (pre & route & post & c & w & _ & _ & _ & _ & ->).
    intros [= <-]; eauto.
  - intros rt subnetID. rewrite associateRouteTable_run. cbn zeta.
    destruct (api_AssociateRouteTable _ _ _) as [[[]|c] w1]; cbn;
      [done | intros [= <-]; eauto].
Qed.

End Wrapping.

(** ** The provider double *)

Section FakeFacts.

Variable getNat : list Subnet.t → Subnet.t → result string.
















Lemma last_is_Some {A} (l : list A) x : x ∈ l → is_Some (last l).
Proof.
  intros Hx. destruct l as [|y l] using rev_ind; [by apply elem_of_nil in Hx|].
  rewrite last_snoc. eauto.
Qed.




Lemma filter_none {A} (P : A → Prop) `{∀ x, Decision (P x)} (l : list A) :
  (∀ x, x ∈ l → ¬ P x) → filter P l = [].
Proof.
  induction l as [|y l IH]; intros Hl; [done|].
  rewrite filter_cons_False by (apply Hl; by left).
  apply IH. intros x Hx. apply Hl. by right.
Qed.


Lemma vpcName_inj k k' : Fake.vpcName k = Fake.vpcName k' → k = k'.
Proof. unfold Fake.vpcName. cbn. intros [= H]. by apply (inj pretty). Qed.

Lemma vpcName_not_empty k : Fake.vpcName k ≠ "".
Proof. unfold Fake.vpcName. cbn. discriminate. Qed.

Lemma tagVpc_id id kv (l : list Fake.vpc) :
  Fake.vpcId <$> (Fake.tagVpc id kv <$> l) = Fake.vpcId <$> l.
Proof.
  rewrite <- list_fmap_compose. apply list_fmap_ext. intros _ v _. cbn.
  unfold Fake.tagVpc. by case_decide.
Qed.


(** A VPC pass that succeeds against a well-formed double leaves it
    well-formed, with the caller's VPC among the provider's. *)
Lemma fake_reconcileVPC_ok clusterName (st st' : State Fake.t) :
  Fake.wf (world st) →
  reconcileVPC Fake.EC2 Fake.addTagFilters clusterName st = (Ok tt, st') →
  Fake.wf (world st') ∧ present (world st') (Network.VPC (network st')).
Proof.
  intros (W1 & W2 & W3).
  rewrite reconcileVPC_run, describeVPC_run. cbn zeta.
  change (api_DescribeVpcs Fake.EC2) with Fake.DescribeVpcs. unfold Fake.DescribeVpcs.
  set (q := locatorInput _ _ _).
  destruct (Fake.desc <$> filter (Fake.vpcSelected q) (Fake.vpcs (world st)))
    as [|vpc [|vpc' vpcs]] eqn:Hf; [| |discriminate].
  - rewrite createVPC_run. cbn zeta.
    change (api_CreateVpc Fake.EC2) with Fake.CreateVpc.
    change (api_WaitUntilVpcAvailable Fake.EC2) with Fake.WaitUntilVpcAvailable.
    change (api_CreateTags Fake.EC2) with Fake.CreateTags.
    unfold Fake.CreateVpc at 1. cbn -[Fake.WaitUntilVpcAvailable Fake.CreateTags].
    unfold Fake.WaitUntilVpcAvailable at 1. case_decide; [|discriminate].
    cbn -[Fake.CreateTags]. unfold Fake.CreateTags at 1. cbn. case_decide; [|discriminate].
    intros [= <-]. cbn. unfold Fake.wf, present. cbn.
    rewrite tagVpc_id, fmap_app. cbn.
    repeat split.
    + apply NoDup_app. repeat split; [done | | apply NoDup_singleton].
      intros id Hid Hid'. apply list_elem_of_singleton in Hid' as ->.
      by apply (W3 (Fake.nextId (world st))).
    + rewrite elem_of_app, list_elem_of_singleton. intros [?|Hn]; [done|].
      by apply (vpcName_not_empty (Fake.nextId (world st))).
    + intros k Hk. rewrite elem_of_app, list_elem_of_singleton. intros [Hin|Heq].
      * apply (W3 k); [lia | done].
      * apply vpcName_inj in Heq. lia.
    + eexists. split.
      * apply list_elem_of_fmap_2, elem_of_app. right. by apply list_elem_of_singleton.
      * unfold Fake.tagVpc. by case_decide.
  - intros [= <-]. cbn. split; [done|].
    assert (Hin : vpc ∈ Fake.desc <$> filter (Fake.vpcSelected q) (Fake.vpcs (world st))).
    { rewrite Hf. by apply list_elem_of_singleton. }
    apply list_elem_of_fmap in Hin as (fv & -> & Hin).
    apply list_elem_of_filter in Hin as [_ Hin].
    exists fv. split; [done|]. by destruct (Fake.desc fv).
Qed.







End FakeFacts.

#[local] Arguments deleteVPC : simpl never.

(** ** What the route table reconciler leaves alone *)

Section RouteTableFrame.

Context {W : Type}.
Variable EC2 : EC2API W.
Variable getNat : list Subnet.t → Subnet.t → result string.

Lemma sameButTable_refl sn : sameButTable sn sn.
Proof. by repeat split. Qed.

Lemma sameButTable_trans sn1 sn2 sn3 :
  sameButTable sn1 sn2 → sameButTable sn2 sn3 → sameButTable sn1 sn3.
Proof. intros (A1 & A2 & A3 & A4) (B1 & B2 & B3 & B4). repeat split; congruence. Qed.

Lemma Forall2_sameButTable_refl sns : Forall2 sameButTable sns sns.
Proof. induction sns; constructor; [apply sameButTable_refl | done]. Qed.

Lemma Forall2_sameButTable_trans l1 l2 l3 :
  Forall2 sameButTable l1 l2 → Forall2 sameButTable l2 l3 → Forall2 sameButTable l1 l3.
Proof.
  intros H. revert l3. induction H as [|x y l k Hxy _ IH]; intros l3 H3.
  - by inversion H3.
  - inversion H3 as [|? z ? k3 Hyz Hk]; subst. constructor; [|by apply IH].
    by eapply sameButTable_trans.
Qed.

(** The calls of [createRouteTableWithRoutes], whatever the outcome. *)
Lemma createRouteTableWithRoutes_calls vpc routes (st : State W) :
  ∃ cs, calls (createRouteTableWithRoutes EC2 vpc routes st).2 = calls st ++ cs
        ∧ forallb isRouteTableCall cs = true
        ∧ List.filter isDescribeRouteTables cs = [].
Proof.
  rewrite createRouteTableWithRoutes_run. cbn zeta.
  destruct (api_CreateRouteTable _ _ _) as [[out|c] w]; [|by eexists].
  set (st1 := mkState _ _ _).
  pose proof (forRange_createRoute EC2 out routes st1) as [_ H]. cbn zeta in H.
  assert (Hdone : ∀ l, forallb isRouteTableCall (createRouteDone out <$> l) = true
                       ∧ List.filter isDescribeRouteTables (createRouteDone out <$> l) = []).
  { induction l as [|r l [IH1 IH2]]; [done|]. cbn. by rewrite IH1, IH2. }
  destruct (forRange _ _ _) as [[[]|e] st2]; cbn in *.
  - destruct H as [Hcs _]. rewrite Hcs. subst st1. cbn. rewrite <- app_assoc.
    eexists. split; [reflexivity|]. cbn. apply Hdone.
  - destruct H as (pre & route & post & c & w' & _ & _ & _ & Hcs & _).
    rewrite Hcs. subst st1. cbn. rewrite <- !app_assoc.
    eexists. split; [reflexivity|]. cbn.
    rewrite forallb_app, List.filter_app. destruct (Hdone pre) as [-> ->]. done.
Qed.

Lemma associateRouteTable_calls rt subnetID (st : State W) :
  ∃ cs, calls (associateRouteTable EC2 rt subnetID st).2 = calls st ++ cs
        ∧ forallb isRouteTableCall cs = true
        ∧ List.filter isDescribeRouteTables cs = [].
Proof.
  rewrite associateRouteTable_run. cbn zeta.
  destruct (api_AssociateRouteTable _ _ _) as [[[]|c] w]; by eexists.
Qed.

(** One turn of the loop, whatever the outcome. *)
Lemma reconcileSubnetRouteTable_effect m i (st : State W) :
  let st' := (reconcileSubnetRouteTable EC2 getNat m i st).2 in
  Forall2 sameButTable (Network.Subnets (network st)) (Network.Subnets (network st'))
  ∧ ∃ cs, calls st' = calls st ++ cs
          ∧ forallb isRouteTableCall cs = true
          ∧ List.filter isDescribeRouteTables cs = [].
Proof.
  assert (Hnil : ∃ cs, calls st = calls st ++ cs
                       ∧ forallb isRouteTableCall cs = true
                       ∧ List.filter isDescribeRouteTables cs = []).
  { exists []. by rewrite app_nil_r. }
  rewrite reconcileSubnetRouteTable_run.
  destruct (Network.Subnets (network st) !! i) as [sn|] eqn:Hsn;
    [|split; [apply Forall2_sameButTable_refl | done]].
  destruct (m !! Subnet.ID sn); [split; [apply Forall2_sameButTable_refl | done]|].
  destruct (defaultRoutes _ _ _) as [routes|e];
    [|split; [apply Forall2_sameButTable_refl | done]].
  pose proof (createRouteTableWithRoutes_network EC2 (Network.VPC (network st)) routes st) as N1.
  destruct (createRouteTableWithRoutes_calls (Network.VPC (network st)) routes st)
    as (cs1 & C1 & K1 & D1).
  destruct (createRouteTableWithRoutes _ _ _ _) as [[rt|e] st1]; cbn in *.
  2: { rewrite N1. split; [apply Forall2_sameButTable_refl | by exists cs1]. }
  pose proof (associateRouteTable_network EC2 rt (Subnet.ID sn) st1) as N2.
  destruct (associateRouteTable_calls rt (Subnet.ID sn) st1) as (cs2 & C2 & K2 & D2).
  assert (Hcs : ∃ cs, calls (associateRouteTable EC2 rt (Subnet.ID sn) st1).2 = calls st ++ cs
                      ∧ forallb isRouteTableCall cs = true
                      ∧ List.filter isDescribeRouteTables cs = []).
  { exists (cs1 ++ cs2). rewrite C2, C1, <- app_assoc, forallb_app, List.filter_app, K1, K2, D1, D2.
    done. }
  destruct (associateRouteTable _ _ _ _) as [[[]|e] st2]; cbn in *; rewrite N2, N1.
  2: { split; [apply Forall2_sameButTable_refl | done]. }
  split; [|done].
  rewrite <- (list_insert_id _ _ _ Hsn) at 1.
  apply Forall2_insert; [apply Forall2_sameButTable_refl | by repeat split].
Qed.

Lemma forRange_effect m (ixs : list nat) (st : State W) :
  let st' := (forRange ixs (reconcileSubnetRouteTable EC2 getNat m) st).2 in
  Forall2 sameButTable (Network.Subnets (network st)) (Network.Subnets (network st'))
  ∧ ∃ cs, calls st' = calls st ++ cs
          ∧ forallb isRouteTableCall cs = true
          ∧ List.filter isDescribeRouteTables cs = [].
Proof.
  revert st. induction ixs as [|i ixs IH]; intros st; cbn.
  { split; [apply Forall2_sameButTable_refl|]. exists []. by rewrite app_nil_r. }
  unfold bind.
  pose proof (reconcileSubnetRouteTable_effect m i st) as [F (cs1 & C1 & K1 & D1)].
  destruct (reconcileSubnetRouteTable _ _ _ _ _) as [[[]|e] st1]; cbn in *.
  - destruct (IH st1) as [F' (cs2 & C2 & K2 & D2)]. split.
    + by eapply Forall2_sameButTable_trans.
    + exists (cs1 ++ cs2).
      rewrite C2, C1, <- app_assoc, forallb_app, List.filter_app, K1, K2, D1, D2. done.
  - split; [done | by exists cs1].
Qed.

(** X1.  Whatever the outcome, [reconcileRouteTables] leaves the VPC and
    the internet gateway id of the caller's struct as they were and keeps
    the subnets in number and order, changing of a subnet nothing but its
    table id. *)
Theorem reconcileRouteTables_writes_table_ids_only (st : State W) :
  let st' := (reconcileRouteTables EC2 getNat st).2 in
  Network.VPC (network st') = Network.VPC (network st)
  ∧ Network.InternetGatewayID (network st') = Network.InternetGatewayID (network st)
  ∧ Forall2 sameButTable (Network.Subnets (network st)) (Network.Subnets (network st')).
Proof.
  rewrite reconcileRouteTables_run, describeVpcRouteTablesBySubnet_run. cbn zeta.
  destruct (api_DescribeRouteTables _ _ _) as [[rts|c] w]; cbn.
  2: { repeat split. apply Forall2_sameButTable_refl. }
  set (st1 := mkState _ _ _). set (ixs := seq _ _).
  destruct (forRange_frame EC2 getNat (bySubnet rts) ixs st1) as (F1 & F2 & _).
  destruct (forRange_effect (bySubnet rts) ixs st1) as [F _].
  by repeat split.
Qed.

(** X2.  Whatever the outcome, the calls that [reconcileRouteTables]
    issues are one describe call for the tables of the struct's VPC, first,
    followed by create-table, create-route and association calls only: no
    second describe, no call on a VPC, no deletion; and nothing follows a
    describe call that failed. *)
Theorem reconcileRouteTables_calls (st : State W) :
  let st' := (reconcileRouteTables EC2 getNat st).2 in
  ∃ o cs,
    calls st' = calls st
                ++ DescribeRouteTables
                     (ec2.DescribeRouteTablesInput.mk
                        [ec2.Filter.mk (Some "vpc-id") [VPC.ID (Network.VPC (network st))]])
                     o
                :: cs
    ∧ forallb isRouteTableCall cs = true
    ∧ List.filter isDescribeRouteTables cs = []
    ∧ (∀ c, o = Failed c → cs = []).
Proof.
  rewrite reconcileRouteTables_run, describeVpcRouteTablesBySubnet_run. cbn zeta.
  destruct (api_DescribeRouteTables _ _ _) as [[rts|c] w]; cbn.
  2: { by exists (Failed c), []. }
  set (st1 := mkState _ _ _). set (ixs := seq _ _).
  destruct (forRange_effect (bySubnet rts) ixs st1) as [_ (cs & C & K & D)].
  exists (Done rts), cs. rewrite C. subst st1. cbn. rewrite <- app_assoc.
  by repeat split.
Qed.

End RouteTableFrame.

(** ** How a pass over the route tables fails *)

Section RouteTableFailures.

Context {W : Type}.
Variable EC2 : EC2API W.
Variable getNat : list Subnet.t → Subnet.t → result string.

Lemma describe_keeps_network vpcID (st st1 : State W) m :
  describeVpcRouteTablesBySubnet EC2 vpcID st = (Ok m, st1) → network st1 = network st.
Proof.
  rewrite describeVpcRouteTablesBySubnet_run. cbn zeta.
  destruct (api_DescribeRouteTables _ _ _) as [[rts|c] w]; [|discriminate].
  by intros [= <- <-].
Qed.

(** X3.  A private subnet that no table of the describe reply is
    associated with, and for which the lookup of the NAT gateway fails when
    the loop reaches it: [reconcileRouteTables] stops there, in the state
    that the subnets before it left, and returns the error of the lookup as
    it is, or the error of an earlier subnet when one failed. *)
Theorem reconcileRouteTables_private_subnet_needs_nat_gateway (st st1 : State W) m i sn e :
  describeVpcRouteTablesBySubnet EC2 (VPC.ID (Network.VPC (network st))) st = (Ok m, st1) →
  Network.Subnets (network st) !! i = Some sn →
  Subnet.IsPublic sn = false →
  m !! Subnet.ID sn = None →
  let before := forRange (seq 0 i) (reconcileSubnetRouteTable EC2 getNat m) st1 in
  getNat (Network.Subnets (network before.2)) sn = Err e →
  (reconcileRouteTables EC2 getNat st).2 = before.2
  ∧ (reconcileRouteTables EC2 getNat st).1
    = match before.1 with
      | Ok _ => Err e
      | Err e' => Err e'
      end.
Proof.
  intros Hd Hsn Hpriv Hm before Hnat.
  pose proof (describe_keeps_network _ _ _ _ Hd) as Hnet.
  rewrite reconcileRouteTables_run, Hd.
  rewrite (forRange_seq_split _ _ i) by (by eapply lookup_lt_Some).
  destruct (forRange_prefix_frame EC2 getNat m i st1) as (F1 & F2 & F3).
  fold before in F1, F2, F3, Hnat |- *.
  destruct before as [[[]|e'] st2]; cbn in *; [|done].
  rewrite reconcileSubnetRouteTable_run, F3, Hnet, Hsn, Hm.
  unfold defaultRoutes. by rewrite Hpriv, Hnat.
Qed.

(** X4.  The table of a subnet and its routes are created and the
    association call fails: [reconcileRouteTables] returns that failure
    wrapped with the ids of the table and of the subnet, right after the
    failed call; the subnet's table id is not written, and the table stays
    at the provider with its routes, nothing being deleted. *)
Theorem reconcileRouteTables_association_failure
    (st st1 st2 : State W) m i sn routes rt c w :
  describeVpcRouteTablesBySubnet EC2 (VPC.ID (Network.VPC (network st))) st = (Ok m, st1) →
  let before := forRange (seq 0 i) (reconcileSubnetRouteTable EC2 getNat m) st1 in
  before.1 = Ok tt →
  Network.Subnets (network st) !! i = Some sn →
  m !! Subnet.ID sn = None →
  defaultRoutes getNat (network before.2) sn = Ok routes →
  createRouteTableWithRoutes EC2 (Network.VPC (network st)) routes before.2 = (Ok rt, st2) →
  api_AssociateRouteTable EC2
    (ec2.AssociateRouteTableInput.mk (Some (RouteTable.ID rt)) (Some (Subnet.ID sn)))
    (world st2) = (Failed c, w) →
  reconcileRouteTables EC2 getNat st
  = (Err (Wrapf (AwsError c) "failed to associate route table %q to subnet %q"
            [ArgString (RouteTable.ID rt); ArgString (Subnet.ID sn)]),
     mkState (network before.2) w
       (calls st2
          ++ [AssociateRouteTable
                (ec2.AssociateRouteTableInput.mk
                   (Some (RouteTable.ID rt)) (Some (Subnet.ID sn)))
                (Failed c)]))
  ∧ Network.Subnets (network before.2) !! i = Some sn
  ∧ ∃ out,
      ec2.RouteTable.RouteTableId out = RouteTable.ID rt
      ∧ calls st2 = calls before.2
                    ++ CreateRouteTable
                         (ec2.CreateRouteTableInput.mk
                            (Some (VPC.ID (Network.VPC (network st))))) (Done out)
                    :: (createRouteDone out <$> routes).
Proof.
  intros Hd before Hok Hsn Hm Hroutes Hc Ha.
  pose proof (describe_keeps_network _ _ _ _ Hd) as Hnet.
  destruct (forRange_prefix_frame EC2 getNat m i st1) as (F1 & F2 & F3).
  fold before in F1, F2, F3. rewrite Hnet in F1, F2, F3.
  pose proof (createRouteTableWithRoutes_network EC2
                (Network.VPC (network st)) routes before.2) as N. rewrite Hc in N. cbn in N.
  split; [|split].
  - eapply reconcileRouteTables_returns_first_error; try done.
    { by eapply lookup_lt_Some. }
    fold before. rewrite reconcileSubnetRouteTable_run, F3, Hsn, Hm, Hroutes, F1, Hc.
    rewrite associateRouteTable_run. cbn zeta. by rewrite Ha, N.
  - by rewrite F3.
  - apply createRouteTableWithRoutes_ok in Hc as (out & w0 & _ & _ & -> & _ & Hcs).
    by exists out.
Qed.

(** The routes of a create-route call are the routes that were asked for:
    no field is lost on the way to the provider. *)
Lemma routeOf_createRouteInput out route : Fake.routeOf (createRouteInput out route) = route.
Proof. by destruct route. Qed.

Lemma routeSent_createRouteDone out (routes : list ec2.Route.t) :
  omap routeSent (createRouteDone out <$> routes) = routes.
Proof.
  induction routes as [|r routes IH]; [done|].
  cbn -[Fake.routeOf createRouteInput].
  by rewrite routeOf_createRouteInput, IH.
Qed.

(** X5.  When [createRouteTableWithRoutes] succeeds it has issued one
    create-table call for the VPC and then one create-route call per route:
    read back from the calls, the routes are the routes that were asked for,
    all fields kept, in order; each call names the table that is returned
    and each was accepted; the caller's struct is untouched. *)
Theorem createRouteTableWithRoutes_sends_the_routes vpc routes (st st' : State W) rt :
  createRouteTableWithRoutes EC2 vpc routes st = (Ok rt, st') →
  network st' = network st
  ∧ omap routeSent (issued st st') = routes
  ∧ length (issued st st') = S (length routes)
  ∧ (∀ i o, CreateRoute i o ∈ issued st st' →
       ec2.CreateRouteInput.RouteTableId i = RouteTable.ID rt ∧ o = Done tt)
  ∧ ∃ out, issued st st' !! 0
           = Some (CreateRouteTable (ec2.CreateRouteTableInput.mk (Some (VPC.ID vpc)))
                     (Done out))
           ∧ ec2.RouteTable.RouteTableId out = RouteTable.ID rt.
Proof.
  intros H. apply createRouteTableWithRoutes_ok in H as (out & w & _ & _ & -> & Hn & Hcs).
  rewrite (issued_app _ _ _ Hcs). cbn.
  pose proof (routeSent_createRouteDone out routes) as Hdec.
  repeat split; try done.
  - by rewrite length_fmap.
  - apply elem_of_cons in H as [H|H]; [discriminate|].
    apply list_elem_of_fmap in H as (r & H & _). by injection H as -> ->.
  - apply elem_of_cons in H as [H|H]; [discriminate|].
    apply list_elem_of_fmap in H as (r & H & _). by injection H as -> ->.
  - by exists out.
Qed.

(** X6.  When the describe call fails, [reconcileRouteTables] returns the
    failure wrapped with the id of the VPC, having issued that call alone,
    whatever the subnets; when it succeeds and the network has no subnet,
    the pass succeeds with that call alone. *)
Theorem reconcileRouteTables_describe_failure_and_no_subnets (st : State W) :
  let q := ec2.DescribeRouteTablesInput.mk
             [ec2.Filter.mk (Some "vpc-id") [VPC.ID (Network.VPC (network st))]] in
  (∀ c w,
     api_DescribeRouteTables EC2 q (world st) = (Failed c, w) →
     reconcileRouteTables EC2 getNat st
     = (Err (Wrapf (AwsError c) "failed to describe route tables in vpc %q"
               [ArgString (VPC.ID (Network.VPC (network st)))]),
        mkState (network st) w (calls st ++ [DescribeRouteTables q (Failed c)])))
  ∧ (∀ rts w,
       api_DescribeRouteTables EC2 q (world st) = (Done rts, w) →
       Network.Subnets (network st) = [] →
       reconcileRouteTables EC2 getNat st
       = (Ok tt, mkState (network st) w (calls st ++ [DescribeRouteTables q (Done rts)]))).
Proof.
  intros q. split.
  - intros c w H. rewrite reconcileRouteTables_run, describeVpcRouteTablesBySubnet_run.
    cbn zeta. fold q. by rewrite H.
  - intros rts w H Hnil. rewrite reconcileRouteTables_run, describeVpcRouteTablesBySubnet_run.
    cbn zeta. fold q. by rewrite H, Hnil.
Qed.

End RouteTableFailures.

(** ** The map of associations and the order of the reply *)

Lemma last_of_equals {A} (l l' : list A) :
  l ≡ₚ l' → (∀ x y, x ∈ l → y ∈ l → x = y) → last l = last l'.
Proof.
  intros Hp Heq.
  destruct (last l) as [x|] eqn:Hl.
  - apply last_Some_elem_of in Hl as Hx.
    assert (Hx' : x ∈ l') by (by rewrite <- Hp).
    destruct (last_is_Some l' x Hx') as [y Hy]. rewrite Hy. f_equal.
    apply last_Some_elem_of in Hy. rewrite <- Hp in Hy. by apply Heq.
  - apply last_None in Hl as ->. by apply Permutation_nil_l in Hp as <-.
Qed.

(** X7.  When no subnet is associated with two different tables of the
    reply, as the provider promises, the map that
    [describeVpcRouteTablesBySubnet] builds does not depend on the order in
    which the provider lists the tables. *)
Theorem bySubnet_order_independent (rts rts' : list ec2.RouteTable.t) :
  rts ≡ₚ rts' →
  (∀ subnetID rt1 rt2,
     rt1 ∈ rts → rt2 ∈ rts →
     associates subnetID rt1 → associates subnetID rt2 → rt1 = rt2) →
  bySubnet rts = bySubnet rts'.
Proof.
  intros Hp Hone. apply map_eq. intros subnetID.
  rewrite !bySubnet_lookup. apply last_of_equals.
  - by rewrite Hp.
  - intros x y [Hx1 Hx2]%list_elem_of_filter [Hy1 Hy2]%list_elem_of_filter.
    by apply (Hone subnetID).
Qed.

(** ** What the VPC reconciler leaves alone *)

Section VpcFrame.

Context {W : Type}.
Variable EC2 : EC2API W.
Variable tagf : string → list ec2.Filter.t → list ec2.Filter.t.

(** X8.  Whatever the outcome, [reconcileVPC] leaves the subnets and the
    internet gateway id as they were and issues describe, create, wait and
    tag calls only, never a deletion.  When it returns an error the id in
    the caller's struct is the one it came with, even when a VPC has been
    created, and the address block is the one it came with or, when that
    was empty, 10.0.0.0/16. *)
Theorem reconcileVPC_error_keeps_identifier clusterName (st : State W) :
  let st' := (reconcileVPC EC2 tagf clusterName st).2 in
  let v := Network.VPC (network st) in
  let v' := Network.VPC (network st') in
  Network.Subnets (network st') = Network.Subnets (network st)
  ∧ Network.InternetGatewayID (network st') = Network.InternetGatewayID (network st)
  ∧ List.filter (λ c, negb (isVpcCall c)) (issued st st') = []
  ∧ (∀ e, (reconcileVPC EC2 tagf clusterName st).1 = Err e →
       VPC.ID v' = VPC.ID v
       ∧ (VPC.CidrBlock v' = VPC.CidrBlock v
          ∨ VPC.CidrBlock v = "" ∧ VPC.CidrBlock v' = "10.0.0.0/16")).
Proof.
  intros st' v v'. subst st' v'.
  assert (Hc : VPC.CidrBlock (VPC.mk (VPC.ID v) (requestedCidr v)) = VPC.CidrBlock v
               ∨ VPC.CidrBlock v = ""
                 ∧ VPC.CidrBlock (VPC.mk (VPC.ID v) (requestedCidr v)) = "10.0.0.0/16").
  { unfold requestedCidr. case_decide; [by right | by left]. }
  rewrite reconcileVPC_run, describeVPC_run. cbn zeta.
  destruct (api_DescribeVpcs _ _ _) as [[[|vpc [|vpc' vpcs]]|c] w1]; cbn.
  - rewrite createVPC_run. cbn zeta. cbn [network world calls]. fold v.
    destruct (api_CreateVpc _ _ _) as [[out|c] w2]; cbn.
    2: { erewrite issued_app by (cbn; by rewrite <- ?app_assoc). by repeat split. }
    destruct (api_WaitUntilVpcAvailable _ _ _) as [[[]|c] w3]; cbn.
    2: { erewrite issued_app by (cbn; by rewrite <- ?app_assoc). by repeat split. }
    destruct (api_CreateTags _ _ _) as [[[]|c] w4]; cbn;
      (erewrite issued_app by (cbn; by rewrite <- ?app_assoc)); by repeat split.
  - erewrite issued_app by reflexivity. by repeat split.
  - erewrite issued_app by reflexivity. repeat split; try done. by left.
  - erewrite issued_app by reflexivity. repeat split; try done. by left.
Qed.

(** X9.  When [reconcileVPC] succeeds, either the provider reported one
    VPC and the describe call is the only call issued, or it reported none
    and the calls are describe, create, wait and tag, all accepted; in both
    cases the caller's struct holds the id and the address block that the
    provider reported, not the desired ones. *)
Theorem reconcileVPC_success_takes_provider_vpc clusterName (st st' : State W) :
  reconcileVPC EC2 tagf clusterName st = (Ok tt, st') →
  let q := locatorInput tagf clusterName (VPC.ID (Network.VPC (network st))) in
  let v' := Network.VPC (network st') in
  (∃ vpc,
     issued st st' = [DescribeVpcs q (Done [vpc])]
     ∧ v' = VPC.mk (ec2.Vpc.VpcId vpc) (ec2.Vpc.CidrBlock vpc))
  ∨ (∃ out cidr,
       issued st st'
       = [ DescribeVpcs q (Done []);
           CreateVpc (ec2.CreateVpcInput.mk (Some cidr)) (Done out);
           WaitUntilVpcAvailable (ec2.DescribeVpcsInput.mk [] [ec2.Vpc.VpcId out]) (Done tt);
           CreateTags
             (CreateTagsInput.mk clusterName (ec2.Vpc.VpcId out) ResourceLifecycleOwned [])
             (Done tt) ]
       ∧ v' = VPC.mk (ec2.Vpc.VpcId out) (ec2.Vpc.CidrBlock out)).
Proof.
  rewrite reconcileVPC_run, describeVPC_run. cbn zeta.
  destruct (api_DescribeVpcs _ _ _) as [[[|vpc [|vpc' vpcs]]|c] w1]; cbn;
    try discriminate.
  - rewrite createVPC_run. cbn zeta. cbn [network world calls].
    destruct (api_CreateVpc _ _ _) as [[out|c] w2]; cbn; [|discriminate].
    destruct (api_WaitUntilVpcAvailable _ _ _) as [[[]|c] w3]; cbn; [|discriminate].
    destruct (api_CreateTags _ _ _) as [[[]|c] w4]; cbn; [|discriminate].
    intros [= <-]. right. eexists out, _. cbn.
    erewrite issued_app by (cbn; by rewrite <- ?app_assoc). done.
  - intros [= <-]. left. exists vpc. cbn. by erewrite issued_app.
Qed.

End VpcFrame.

(** ** Deleting the VPC *)

Lemma deleteVPC_run {W} (EC2 : EC2API W) v (st : State W) :
  deleteVPC EC2 v st =
    let i := ec2.DeleteVpcInput.mk (Some (VPC.ID v)) in
    let '(o, w) := api_DeleteVpc EC2 i (world st) in
    let st' := mkState (network st) w (calls st ++ [DeleteVpc i o]) in
    match o with
    | Done _ => (Ok tt, st')
    | Failed c =>
        (Err (Wrapf (AwsError c) "failed to delete vpc %q" [ArgString (VPC.ID v)]), st')
    end.
Proof.
  unfold deleteVPC. unfold_run. cbn.
  destruct (api_DeleteVpc _ _ _) as [[[]|c] w]; reflexivity.
Qed.

(** X10.  Against the provider double, in a well-formed state: after a
    successful [reconcileVPC], [deleteVPC] on the VPC of the caller's struct
    succeeds with the delete call alone, without looking up whose VPC it
    is, the provider no longer has a VPC of that id, and [describeVPC] by
    that id reports NotFound. *)
Theorem deleteVPC_removes_the_reconciled_vpc clusterName (st st1 : State Fake.t) :
  Fake.wf (world st) →
  reconcileVPC Fake.EC2 Fake.addTagFilters clusterName st = (Ok tt, st1) →
  let v := Network.VPC (network st1) in
  ∃ st2,
    deleteVPC Fake.EC2 v st1 = (Ok tt, st2)
    ∧ network st2 = network st1
    ∧ issued st1 st2 = [DeleteVpc (ec2.DeleteVpcInput.mk (Some (VPC.ID v))) (Done tt)]
    ∧ ¬ Fake.hasVpc (world st2) (VPC.ID v)
    ∧ (describeVPC Fake.EC2 Fake.addTagFilters clusterName (VPC.ID v) st2).1
      = Err (NewNotFound (Errorf "could not find vpc %q" [ArgString (VPC.ID v)])).
Proof.
  intros Hwf Hrun v.
  apply fake_reconcileVPC_ok in Hrun as [(W1 & W2 & W3) (fv & Hin & Hd)]; [|done].
  fold v in Hd.
  assert (Hid : Fake.vpcId fv = VPC.ID v) by (unfold Fake.vpcId; by rewrite Hd).
  assert (Hhas : Fake.hasVpc (world st1) (VPC.ID v)).
  { unfold Fake.hasVpc. rewrite <- Hid. by apply list_elem_of_fmap_2. }
  assert (Hne : VPC.ID v ≠ "").
  { intros He. apply W2. by rewrite <- He. }
  rewrite deleteVPC_run. cbn zeta.
  change (api_DeleteVpc Fake.EC2) with Fake.DeleteVpc. unfold Fake.DeleteVpc. cbn.
  rewrite decide_True by done.
  eexists. split; [reflexivity|]. cbn.
  assert (Hgone : ¬ Fake.hasVpc
            (Fake.mk (filter (λ v0, Fake.vpcId v0 ≠ VPC.ID v) (Fake.vpcs (world st1)))
               (Fake.routeTables (world st1)) (Fake.nextId (world st1))) (VPC.ID v)).
  { unfold Fake.hasVpc. cbn. intros (fv' & Hid' & Hin')%list_elem_of_fmap.
    apply list_elem_of_filter in Hin' as [Hneq _]. by apply Hneq. }
  split; [done|]. split; [erewrite issued_app by reflexivity; reflexivity|].
  split; [exact Hgone|].
  rewrite describeVPC_run. cbn zeta. unfold locatorInput. rewrite decide_False by done.
  change (api_DescribeVpcs Fake.EC2) with Fake.DescribeVpcs. unfold Fake.DescribeVpcs. cbn.
  rewrite filter_none; [done|].
  intros fv' Hin' [[Hsel|Hsel] _]; cbn in Hsel; [done|].
  apply list_elem_of_singleton in Hsel. apply Hgone. unfold Fake.hasVpc. cbn.
  apply list_elem_of_fmap. exists fv'. by split.
Qed.

(** ** The pipeline *)

Section Pipeline.

Context {W : Type}.
Variable EC2 : EC2API W.
Variable tagf : string → list ec2.Filter.t → list ec2.Filter.t.
Variable getNat : list Subnet.t → Subnet.t → result string.
Variables reconcileSubnets reconcileInternetGateways reconcileNatGateways : M W unit.

(** The pipeline returns the first error: the error of the first
    reconciler that fails, in the state that this reconciler left. *)
Lemma ReconcileNetwork_returns_first_error clusterName (st st' : State W) e :
  ReconcileNetwork EC2 tagf getNat reconcileSubnets reconcileInternetGateways
    reconcileNatGateways clusterName st = (Err e, st') →
  reconcileVPC EC2 tagf clusterName st = (Err e, st')
  ∨ ∃ st1,
      reconcileVPC EC2 tagf clusterName st = (Ok tt, st1)
      ∧ (reconcileSubnets st1 = (Err e, st')
         ∨ ∃ st2,
             reconcileSubnets st1 = (Ok tt, st2)
             ∧ (reconcileInternetGateways st2 = (Err e, st')
                ∨ ∃ st3,
                    reconcileInternetGateways st2 = (Ok tt, st3)
                    ∧ (reconcileNatGateways st3 = (Err e, st')
                       ∨ ∃ st4,
                           reconcileNatGateways st3 = (Ok tt, st4)
                           ∧ reconcileRouteTables EC2 getNat st4 = (Err e, st')))).
Proof.
  unfold ReconcileNetwork, bind.
  destruct (reconcileVPC _ _ _ _) as [[[]|e1] st1]; [|intros [= <- <-]; by left].
  intros H. right. exists st1. split; [done|].
  destruct (reconcileSubnets st1) as [[[]|e2] st2]; [|injection H as <- <-; by left].
  right. exists st2. split; [done|].
  destruct (reconcileInternetGateways st2) as [[[]|e3] st3]; [|injection H as <- <-; by left].
  right. exists st3. split; [done|].
  destruct (reconcileNatGateways st3) as [[[]|e4] st4]; [|injection H as <- <-; by left].
  right. exists st4. by split.
Qed.

Hypothesis subnets_keep_vpc :
  ∀ st, Network.VPC (network (reconcileSubnets st).2) = Network.VPC (network st).
Hypothesis internet_gateways_keep_vpc :
  ∀ st, Network.VPC (network (reconcileInternetGateways st).2) = Network.VPC (network st).
Hypothesis nat_gateways_keep_vpc :
  ∀ st, Network.VPC (network (reconcileNatGateways st).2) = Network.VPC (network st).

(** X11.  When the reconcilers of subnets and gateways leave the VPC of
    the struct alone and [ReconcileNetwork] succeeds, every step succeeded,
    each from the state that the step before it left, and the tables are
    described and created in the VPC that [reconcileVPC] observed: the last
    step is the pass over the route tables run from the state that the NAT
    gateway reconciler left, it describes the tables of the provider of that
    state, it goes over the subnets of that state, its calls all carry the
    id that [reconcileVPC] wrote into the struct, and this is the VPC of the
    struct at the end. *)
Theorem ReconcileNetwork_tables_in_the_observed_vpc clusterName (st st' : State W) :
  ReconcileNetwork EC2 tagf getNat reconcileSubnets reconcileInternetGateways
    reconcileNatGateways clusterName st = (Ok tt, st') →
  ∃ (st1 st2 st3 st4 : State W) rts cs,
    let q := ec2.DescribeRouteTablesInput.mk
               [ec2.Filter.mk (Some "vpc-id") [VPC.ID (Network.VPC (network st1))]] in
    reconcileVPC EC2 tagf clusterName st = (Ok tt, st1)
    ∧ reconcileSubnets st1 = (Ok tt, st2)
    ∧ reconcileInternetGateways st2 = (Ok tt, st3)
    ∧ reconcileNatGateways st3 = (Ok tt, st4)
    ∧ reconcileRouteTables EC2 getNat st4 = (Ok tt, st')
    ∧ Network.VPC (network st4) = Network.VPC (network st1)
    ∧ Network.VPC (network st') = Network.VPC (network st1)
    ∧ (api_DescribeRouteTables EC2 q (world st4)).1 = Done rts
    ∧ calls st' = calls st4 ++ DescribeRouteTables q (Done rts) :: cs
    ∧ pass (bySubnet rts) (VPC.ID (Network.VPC (network st1)))
        (Network.Subnets (network st4)) (Network.Subnets (network st')) cs.
Proof.
  unfold ReconcileNetwork, bind.
  destruct (reconcileVPC _ _ _ _) as [[[]|e1] st1] eqn:E1; [|discriminate].
  pose proof (subnets_keep_vpc st1) as H2.
  destruct (reconcileSubnets st1) as [[[]|e2] st2] eqn:E2; [|discriminate].
  pose proof (internet_gateways_keep_vpc st2) as H3.
  destruct (reconcileInternetGateways st2) as [[[]|e3] st3] eqn:E3; [|discriminate].
  pose proof (nat_gateways_keep_vpc st3) as H4.
  destruct (reconcileNatGateways st3) as [[[]|e4] st4] eqn:E4; [|discriminate].
  cbn in H2, H3, H4.
  assert (Hv : Network.VPC (network st4) = Network.VPC (network st1)) by congruence.
  intros Hrun. pose proof Hrun as Hall. revert Hrun.
  rewrite reconcileRouteTables_run, describeVpcRouteTablesBySubnet_run. cbn zeta.
  destruct (api_DescribeRouteTables _ _ _) as [[rts|c] w] eqn:Hd; [|discriminate].
  set (st5 := mkState _ _ _). intros Hloop.
  pose proof (forRange_frame EC2 getNat (bySubnet rts)
                (seq 0 (length (Network.Subnets (network st4)))) st5) as (F1 & _).
  rewrite Hloop in F1. cbn in F1.
  destruct (forRange_pass EC2 getNat (bySubnet rts) (Network.Subnets (network st4)) [] st5 st')
    as (todo' & cs & P1 & P2 & P3); [done | done |].
  cbn in P1, P2, P3. rewrite <- P1 in P3.
  exists st1, st2, st3, st4, rts, cs. cbn zeta. rewrite <- Hv.
  repeat split; try done.
  - by rewrite Hd.
  - by rewrite P2, <- app_assoc.
Qed.

End Pipeline.

(** ** The scenarios, run *)

Lemma empty_wf : Fake.wf Fake.empty.
Proof.
  repeat split; cbn.
  - constructor.
  - by intros ?%elem_of_nil.
  - by intros k _ ?%elem_of_nil.
Qed.

(** C1, as stated, fails: the only subnet has a table at the provider, the
    pass succeeds with the describe call alone, and the subnet ends the pass
    with the nil table id that it came with. *)
Lemma skipped_subnet_keeps_nil_table_id :
  (reconcileRouteTables Fake.EC2 Fake.getNatGatewayForSubnet Example.unrecorded).1 = Ok tt
  ∧ Network.Subnets
      (network (reconcileRouteTables Fake.EC2 Fake.getNatGatewayForSubnet
                  Example.unrecorded).2)
    = [Example.publicSubnet]
  ∧ Subnet.RouteTableID Example.publicSubnet = None.
Proof. vm_compute. done. Qed.

Lemma reconcileRouteTables_success_witness :
  reconcileRouteTables Fake.EC2 Fake.getNatGatewayForSubnet
    (mkState Example.withVpc Example.oneVpc [])
  = (Ok tt,
     (reconcileRouteTables Fake.EC2 Fake.getNatGatewayForSubnet
        (mkState Example.withVpc Example.oneVpc [])).2)
  ∧ ∃ id, Network.Subnets
            (network (reconcileRouteTables Fake.EC2 Fake.getNatGatewayForSubnet
                        (mkState Example.withVpc Example.oneVpc [])).2) !! 0
          = Some (Subnet.withRouteTableID Example.publicSubnet (Some id)).
Proof.
  assert (H : reconcileRouteTables Fake.EC2 Fake.getNatGatewayForSubnet
                (mkState Example.withVpc Example.oneVpc [])
              = (Ok tt,
                 (reconcileRouteTables Fake.EC2 Fake.getNatGatewayForSubnet
                    (mkState Example.withVpc Example.oneVpc [])).2))
    by (vm_compute; reflexivity).
  split; [exact H|].
  destruct (reconcileRouteTables_success _ _ _ _ H) as (rts & cs & Hcs & _ & Hnew & _).
  apply (Hnew 0 Example.publicSubnet); [reflexivity|].
  assert (rts = []) as ->; [|reflexivity].
  vm_compute in Hcs. by injection Hcs.
Defined.

Lemma createRouteTableWithRoutes_fails_fast_witness :
  (Example.twoRoutes.1
   = Err (Wrapf (AwsError "InjectedFault") "failed to create route in route table %q: %s"
            [ArgString "rtb-1"; ArgRoute Example.r2])
   ∧ (ec2.RouteTable.Routes <$> Fake.routeTables (Faulty.inner (world Example.twoRoutes.2)))
     = [[Example.r1]]
   ∧ List.filter isAssociation (calls Example.twoRoutes.2) = [])
  ∧ (Example.refused.1
     = Err (Wrapf (AwsError "InjectedFault") "failed to create route in route table %q: %s"
              [ArgString "rtb-1"; ArgRoute Example.r1])
     ∧ (ec2.RouteTable.Routes <$> Fake.routeTables (Faulty.inner (world Example.refused.2)))
       = [[]]
     ∧ List.filter isAssociation (calls Example.refused.2) = []
     ∧ Network.Subnets (network Example.refused.2) = [Example.publicSubnet; Example.privateSubnet]).
Proof.
  split.
  - unfold Example.twoRoutes.
    erewrite (proj1 (createRouteTableWithRoutes_fails_fast
                       (Faulty.EC2 Fake.EC2) Fake.getNatGatewayForSubnet)
                Example.vpc0 [Example.r1] Example.r2 []);
      [ | vm_compute; reflexivity .. ].
    vm_compute. done.
  - unfold Example.refused.
    erewrite (proj2 (createRouteTableWithRoutes_fails_fast
                       (Faulty.EC2 Fake.EC2) Fake.getNatGatewayForSubnet)
                _ _ _ 0 Example.publicSubnet [] Example.r1 []);
      [ | vm_compute; reflexivity .. ].
    vm_compute. done.
Defined.

(** Two VPCs carry the cluster's tag: the locator reports the conflict with
    both candidates, and the VPC pass returns it having created nothing. *)
Lemma describeVPC_locates_by_match_count_witness :
  reconcileVPC Fake.EC2 Fake.addTagFilters "cluster" Example.ambiguous
  = (Err (NewConflict (Errorf
       "found more than one vpc with supplied filters. Please clean up extra VPCs: %s"
       [ArgVpcs [ec2.Vpc.mk "vpc-0" "10.0.0.0/16"; ec2.Vpc.mk "vpc-1" "10.1.0.0/16"]])),
     mkState Example.desired Example.twoVpcs
       [DescribeVpcs
          (ec2.DescribeVpcsInput.mk
             [ec2.Filter.mk (Some "tag:kubernetes.io/cluster/cluster") ["owned"]] [])
          (Done [ec2.Vpc.mk "vpc-0" "10.0.0.0/16"; ec2.Vpc.mk "vpc-1" "10.1.0.0/16"])]).
Proof.
  destruct (describeVPC_locates_by_match_count Fake.EC2 Fake.addTagFilters
              "cluster" "" Example.ambiguous) as [_ H].
  destruct (H [ec2.Vpc.mk "vpc-0" "10.0.0.0/16"; ec2.Vpc.mk "vpc-1" "10.1.0.0/16"])
    as (_ & _ & Hconflict); [vm_compute; reflexivity|].
  destruct Hconflict as (format & Hd & Hr); [cbn; lia|].
  rewrite Hr by reflexivity.
  vm_compute in Hd. injection Hd as <-. vm_compute. reflexivity.
Defined.

(** A public subnet gets the internet gateway, a private one the NAT gateway
    of its zone. *)
Lemma defaultRoutes_one_default_route_witness :
  defaultRoutes Fake.getNatGatewayForSubnet Example.desired Example.privateSubnet
  = Ok [ec2.Route.mk (Some "0.0.0.0/0") None None None None (Some "nat-1") None None]
  ∧ defaultRoutes Fake.getNatGatewayForSubnet Example.desired Example.publicSubnet
    = Ok [ec2.Route.mk (Some "0.0.0.0/0") None None (Some "igw-1") None None None None].
Proof.
  split.
  - apply (proj1 (proj2 (defaultRoutes_one_default_route Fake.EC2
                           Fake.getNatGatewayForSubnet
                           Example.desired Example.privateSubnet)) "nat-1");
      vm_compute; reflexivity.
  - apply (proj1 (defaultRoutes_one_default_route Fake.EC2 Fake.getNatGatewayForSubnet
                    Example.desired Example.publicSubnet) "igw-1");
      vm_compute; reflexivity.
Defined.

(** The scenario of the spec: no address block and no VPC at the provider. *)
Lemma reconcileVPC_creates_or_adopts_witness :
  reconcileVPC Fake.EC2 Fake.addTagFilters "cluster" Example.fresh
  = (Ok tt,
     mkState
       (Network.withVPC Example.desired (VPC.mk "vpc-0" "10.0.0.0/16"))
       (Fake.mk [Fake.mkVpc (ec2.Vpc.mk "vpc-0" "10.0.0.0/16")
                   [("kubernetes.io/cluster/cluster", "owned")]] [] 1)
       [ DescribeVpcs
           (ec2.DescribeVpcsInput.mk
              [ec2.Filter.mk (Some "tag:kubernetes.io/cluster/cluster") ["owned"]] [])
           (Done []);
         CreateVpc (ec2.CreateVpcInput.mk (Some "10.0.0.0/16"))
           (Done (ec2.Vpc.mk "vpc-0" "10.0.0.0/16"));
         WaitUntilVpcAvailable (ec2.DescribeVpcsInput.mk [] ["vpc-0"]) (Done tt);
         CreateTags (CreateTagsInput.mk "cluster" "vpc-0" ResourceLifecycleOwned [])
           (Done tt) ]).
Proof.
  erewrite (proj1 (reconcileVPC_creates_or_adopts Fake.EC2 Fake.addTagFilters
                     "cluster" Example.fresh));
    [ | vm_compute; reflexivity .. ].
  vm_compute. reflexivity.
Defined.



(** A private subnet, then a public one, and no internet gateway: the
    private subnet gets its table and the pass fails at the public one. *)
Lemma reconcileRouteTables_public_subnet_needs_gateway_witness :
  (reconcileRouteTables Fake.EC2 Fake.getNatGatewayForSubnet Example.noGateway).1
  = Err (Errorf "failed to create routing tables: internet gateway for %q is nil"
           [ArgString "vpc-0"])
  ∧ length (List.filter isTableCreation
              (calls (reconcileRouteTables Fake.EC2 Fake.getNatGatewayForSubnet
                        Example.noGateway).2)) = 1.
Proof.
  destruct (reconcileRouteTables_public_subnet_needs_gateway
              Fake.EC2 Fake.getNatGatewayForSubnet Example.noGateway
              (describeVpcRouteTablesBySubnet Fake.EC2 "vpc-0" Example.noGateway).2
              ∅ 1 Example.publicSubnet) as [H1 H2];
    [vm_compute; reflexivity .. |].
  rewrite H1, H2. vm_compute. done.
Defined.

(** The describe call fails: the caller gets the provider's error as it is. *)
Lemma describeVPC_returns_provider_failure_bare_witness :
  ∃ e,
    (describeVPC (Faulty.EC2 Fake.EC2) Fake.addTagFilters "cluster" "vpc-0"
       (Example.failing 0 Example.withVpc Example.oneVpc)).1 = Err e
    ∧ (reconcileVPC (Faulty.EC2 Fake.EC2) Fake.addTagFilters "cluster"
         (Example.failing 0 Example.withVpc Example.oneVpc)).1 = Err e
    ∧ e = AwsError "InjectedFault"
    ∧ bare e = true
    ∧ context e = [].
Proof.
  destruct (describeVPC_returns_provider_failure_bare
              (Faulty.EC2 Fake.EC2) Fake.addTagFilters "cluster" "vpc-0"
              (Example.failing 0 Example.withVpc Example.oneVpc)
              "InjectedFault" (Faulty.mk Example.oneVpc 1 [0]))
    as (e & H1 & H2 & H3 & H4 & H5); [vm_compute; reflexivity|].
  exists e. repeat split; try done. by apply H2.
Defined.

(** The create call fails: the caller's empty block has become the default. *)
Lemma createVPC_defaults_callers_struct_witness :
  VPC.CidrBlock (Network.VPC (network (Example.failing 0 Example.desired Fake.empty))) = ""
  ∧ (createVPC (Faulty.EC2 Fake.EC2) "cluster"
       (Example.failing 0 Example.desired Fake.empty)).1
    = Err (Wrapf (AwsError "InjectedFault") "failed to create vpc" [])
  ∧ Network.VPC
      (network (createVPC (Faulty.EC2 Fake.EC2) "cluster"
                  (Example.failing 0 Example.desired Fake.empty)).2)
    = VPC.mk "" "10.0.0.0/16".
Proof.
  split; [reflexivity|]. split; [vm_compute; reflexivity|].
  exact (proj1 (createVPC_defaults_callers_struct (Faulty.EC2 Fake.EC2)
                  Fake.addTagFilters "cluster"
                  (Example.failing 0 Example.desired Fake.empty) eq_refl)).
Defined.

(** Two tables claim a subnet: the map keeps the later one. *)
Lemma describeVpcRouteTablesBySubnet_last_table_wins_witness :
  bySubnet
    [ ec2.RouteTable.mk "rtb-0" "vpc-0" [] [ec2.RouteTableAssociation.mk None;
                                           ec2.RouteTableAssociation.mk (Some "subnet-1")];
      ec2.RouteTable.mk "rtb-1" "vpc-0" [] [ec2.RouteTableAssociation.mk (Some "subnet-1")] ]
  !! "subnet-1"
  = Some (ec2.RouteTable.mk "rtb-1" "vpc-0" [] [ec2.RouteTableAssociation.mk (Some "subnet-1")]).
Proof.
  apply (proj2 (proj2 (proj2 (describeVpcRouteTablesBySubnet_last_table_wins
                                Fake.EC2 "vpc-0" Example.fresh))) []);
    vm_compute; by repeat constructor.
Defined.

(** ** The further scenarios, run *)

Lemma reconcileRouteTables_private_subnet_needs_nat_gateway_witness :
  reconcileRouteTables Fake.EC2 Fake.getNatGatewayForSubnet Cases.noNatGateway
  = (Err (Errorf "no nat gateways available in %q for private subnet %q"
            [ArgString "eu-west-1a"; ArgString "subnet-2"]),
     mkState (network Cases.noNatGateway) Example.oneVpc
       [DescribeRouteTables
          (ec2.DescribeRouteTablesInput.mk [ec2.Filter.mk (Some "vpc-id") ["vpc-0"]])
          (Done [])]).
Proof.
  destruct (reconcileRouteTables_private_subnet_needs_nat_gateway
              Fake.EC2 Fake.getNatGatewayForSubnet Cases.noNatGateway
              (describeVpcRouteTablesBySubnet Fake.EC2 "vpc-0" Cases.noNatGateway).2
              ∅ 0 Example.privateSubnet
              (Errorf "no nat gateways available in %q for private subnet %q"
                 [ArgString "eu-west-1a"; ArgString "subnet-2"])) as [H1 H2];
    [vm_compute; reflexivity .. |].
  destruct (reconcileRouteTables _ _ _) as [r s]. cbn in H1, H2. by subst.
Defined.

Lemma reconcileRouteTables_association_failure_witness :
  (reconcileRouteTables (Faulty.EC2 Fake.EC2) Fake.getNatGatewayForSubnet
     Cases.associationRefused).1
  = Err (Wrapf (AwsError "InjectedFault") "failed to associate route table %q to subnet %q"
           [ArgString "rtb-1"; ArgString "subnet-1"])
  ∧ Network.Subnets
      (network (reconcileRouteTables (Faulty.EC2 Fake.EC2) Fake.getNatGatewayForSubnet
                  Cases.associationRefused).2)
    = [Example.publicSubnet; Example.privateSubnet].
Proof.
  destruct (reconcileRouteTables_association_failure
              (Faulty.EC2 Fake.EC2) Fake.getNatGatewayForSubnet Cases.associationRefused
              (describeVpcRouteTablesBySubnet (Faulty.EC2 Fake.EC2) "vpc-0"
                 Cases.associationRefused).2
              (createRouteTableWithRoutes (Faulty.EC2 Fake.EC2) Example.vpc0 [Example.r1]
                 (describeVpcRouteTablesBySubnet (Faulty.EC2 Fake.EC2) "vpc-0"
                    Cases.associationRefused).2).2
              ∅ 0 Example.publicSubnet [Example.r1] (RouteTable.mk "rtb-1")
              "InjectedFault"
              (Faulty.mk
                 (Faulty.inner
                    (world (createRouteTableWithRoutes (Faulty.EC2 Fake.EC2) Example.vpc0
                              [Example.r1]
                              (describeVpcRouteTablesBySubnet (Faulty.EC2 Fake.EC2) "vpc-0"
                                 Cases.associationRefused).2).2))
                 4 [3]))
    as [H _]; [vm_compute; reflexivity .. |].
  rewrite H. vm_compute. done.
Defined.

Lemma createRouteTableWithRoutes_sends_the_routes_witness :
  omap routeSent
    (issued (mkState Example.withVpc Example.oneVpc [])
       (createRouteTableWithRoutes Fake.EC2 Example.vpc0 [Example.r1; Example.r2]
          (mkState Example.withVpc Example.oneVpc [])).2)
  = [Example.r1; Example.r2].
Proof.
  apply (createRouteTableWithRoutes_sends_the_routes Fake.EC2 Example.vpc0
           [Example.r1; Example.r2] (mkState Example.withVpc Example.oneVpc []) _
           (RouteTable.mk "rtb-1")).
  vm_compute. reflexivity.
Defined.

Lemma bySubnet_order_independent_witness :
  bySubnet [Cases.tableA; Cases.tableB] = bySubnet [Cases.tableB; Cases.tableA].
Proof.
  apply bySubnet_order_independent.
  - apply Permutation_swap.
  - intros s rt1 rt2 H1 H2 A1 A2.
    apply elem_of_cons in H1 as [->|H1]; [|apply list_elem_of_singleton in H1 as ->];
      (apply elem_of_cons in H2 as [->|H2]; [|apply list_elem_of_singleton in H2 as ->]);
      try reflexivity; exfalso;
      unfold associates in A1, A2; cbn in A1, A2;
      repeat match goal with
             | H : _ ∈ _ :: _ |- _ => apply elem_of_cons in H as [H|H]
             | H : _ ∈ [] |- _ => by apply elem_of_nil in H
             end; congruence.
Defined.

Lemma reconcileVPC_success_takes_provider_vpc_witness :
  reconcileVPC Fake.EC2 Fake.addTagFilters "cluster" Example.fresh = (Ok tt, Cases.vpcCreated)
  ∧ Network.VPC (network Cases.vpcCreated) = VPC.mk "vpc-0" "10.0.0.0/16"
  ∧ length (issued Example.fresh Cases.vpcCreated) = 4.
Proof.
  assert (H : reconcileVPC Fake.EC2 Fake.addTagFilters "cluster" Example.fresh
              = (Ok tt, Cases.vpcCreated)) by (vm_compute; reflexivity).
  split; [exact H|].
  destruct (reconcileVPC_success_takes_provider_vpc _ _ _ _ _ H)
    as [(vpc & Hi & Hv)|(out & cidr & Hi & Hv)].
  - vm_compute in Hi. discriminate.
  - split; [reflexivity | by rewrite Hi].
Defined.

Lemma deleteVPC_removes_the_reconciled_vpc_witness :
  ∃ st2,
    deleteVPC Fake.EC2 (VPC.mk "vpc-0" "10.0.0.0/16") Cases.vpcCreated = (Ok tt, st2)
    ∧ ¬ Fake.hasVpc (world st2) "vpc-0"
    ∧ (describeVPC Fake.EC2 Fake.addTagFilters "cluster" "vpc-0" st2).1
      = Err (NewNotFound (Errorf "could not find vpc %q" [ArgString "vpc-0"])).
Proof.
  assert (H : reconcileVPC Fake.EC2 Fake.addTagFilters "cluster" Example.fresh
              = (Ok tt, Cases.vpcCreated)) by (vm_compute; reflexivity).
  destruct (deleteVPC_removes_the_reconciled_vpc "cluster" Example.fresh Cases.vpcCreated
              empty_wf H) as (st2 & H1 & _ & _ & H4 & H5).
  exists st2. split; [exact H1|]. split; [exact H4 | exact H5].
Defined.

Lemma ReconcileNetwork_tables_in_the_observed_vpc_witness :
  ∃ (st1 st2 st3 st4 : State Fake.t) rts cs,
    let q := ec2.DescribeRouteTablesInput.mk
               [ec2.Filter.mk (Some "vpc-id") [VPC.ID (Network.VPC (network st1))]] in
    reconcileVPC Fake.EC2 Fake.addTagFilters "cluster" Example.fresh = (Ok tt, st1)
    ∧ ret tt st1 = (Ok tt, st2)
    ∧ ret tt st2 = (Ok tt, st3)
    ∧ ret tt st3 = (Ok tt, st4)
    ∧ reconcileRouteTables Fake.EC2 Fake.getNatGatewayForSubnet st4
      = (Ok tt, Example.converged)
    ∧ Network.VPC (network st4) = Network.VPC (network st1)
    ∧ Network.VPC (network Example.converged) = Network.VPC (network st1)
    ∧ (Fake.DescribeRouteTables q (world st4)).1 = Done rts
    ∧ calls Example.converged = calls st4 ++ DescribeRouteTables q (Done rts) :: cs
    ∧ pass (bySubnet rts) (VPC.ID (Network.VPC (network st1)))
        (Network.Subnets (network st4)) (Network.Subnets (network Example.converged)) cs.
Proof.
  apply (ReconcileNetwork_tables_in_the_observed_vpc Fake.EC2 Fake.addTagFilters
           Fake.getNatGatewayForSubnet (ret tt) (ret tt) (ret tt)
           (λ _, eq_refl) (λ _, eq_refl) (λ _, eq_refl) "cluster").
  vm_compute. reflexivity.
Defined.
